(** * cgt_calc.currency_converter: conversion to GBP from a monthly rate history

    A shallow embedding of [src/cgt_calc/currency_converter.py].

    Python objects are modelled as follows.
    - [dict]: an insertion-ordered association list with unique keys
      ([dict_set] overwrites in place, or appends).
    - exceptions: the [Raise] constructor of [result]; a method that also
      changes the converter or the outside world returns the state it
      reached next to its result.
    - [datetime.date]: a record of year, month and day; [valid_date] says
      which records are dates.  [fromisoformat] reads the format
      YYYY-MM-DD, the one [str] writes.
    - [str]: a string of bytes; [upper] acts on the ASCII letters.
    - [Decimal]: sign, coefficient and exponent, with the reader, the
      writer and the division of the decimal module in its default
      context.
    - the csv module: a file is the list of rows [csv.reader] yields for it,
      and [csv.writer] stores the rows it is given (the csv text format is
      a loss-free carrier of rows of strings); opening a file for writing
      succeeds.
    - [requests] and [defusedxml]: a request fails or is answered, and a
      response carries the element tree the XML parser builds from its
      body. *)

From Stdlib Require Import ZArith NArith List String Ascii Bool Lia QArith.
From Stdlib Require Import DecimalString.
From stdpp Require Import base decidable option gmap strings.

Import ListNotations.
Local Open Scope string_scope.
Local Open Scope Z_scope.
Local Open Scope list_scope.

(** ** Strings *)

Module Str.

Definition is_lower (c : ascii) : bool :=
  let n := nat_of_ascii c in (97 <=? n)%nat && (n <=? 122)%nat.

Definition upper_char (c : ascii) : ascii :=
  if is_lower c then ascii_of_nat (nat_of_ascii c - 32) else c.

(** [str.upper], on the ASCII letters (currency codes are ASCII). *)
Fixpoint upper (s : string) : string :=
  match s with
  | EmptyString => EmptyString
  | String c s' => String (upper_char c) (upper s')
  end.

(** [sub in s] *)
Fixpoint contains (sub s : string) : bool :=
  String.prefix sub s ||
  match s with
  | EmptyString => false
  | String _ s' => contains sub s'
  end.

Definition digit (n : Z) : ascii := ascii_of_nat (48 + Z.to_nat (n mod 10)).

(** ["%02d" % n] and ["%04d" % n], for [0 <= n] below 100 and 10000. *)
Definition fmt2 (n : Z) : string :=
  String (digit (n / 10)) (String (digit n) EmptyString).

Definition fmt4 (n : Z) : string :=
  String (digit (n / 1000)) (String (digit (n / 100))
    (String (digit (n / 10)) (String (digit n) EmptyString))).

Definition is_digit (c : ascii) : bool :=
  let n := nat_of_ascii c in (48 <=? n)%nat && (n <=? 57)%nat.

Definition digit_val (c : ascii) : Z := Z.of_nat (nat_of_ascii c) - 48.

(** [int(s)] for a string of ASCII digits; [None] otherwise. *)
Fixpoint digits_from (acc : Z) (s : string) : option Z :=
  match s with
  | EmptyString => Some acc
  | String c s' =>
      if is_digit c then digits_from (10 * acc + digit_val c) s' else None
  end.

Definition parse_digits (s : string) : option Z :=
  match s with
  | EmptyString => None
  | _ => digits_from 0 s
  end.

End Str.

(** ** Dictionaries *)

Section Dict.
Context {K V : Type} `{EqDecision K}.

Definition dict : Type := list (K * V).

Fixpoint dict_get (k : K) (d : dict) : option V :=
  match d with
  | [] => None
  | (k', v) :: d' => if decide (k = k') then Some v else dict_get k d'
  end.

Definition dict_mem (k : K) (d : dict) : bool :=
  match dict_get k d with Some _ => true | None => false end.

(** [d[k] = v] *)
Fixpoint dict_set (k : K) (v : V) (d : dict) : dict :=
  match d with
  | [] => [(k, v)]
  | (k', v') :: d' =>
      if decide (k = k') then (k', v) :: d' else (k', v') :: dict_set k v d'
  end.

Definition dict_keys (d : dict) : list K := map fst d.
Definition dict_values (d : dict) : list V := map snd d.

(** [{**a, **b}] *)
Definition dict_merge (a b : dict) : dict :=
  fold_left (fun acc kv => dict_set (fst kv) (snd kv) acc) b a.

(** [dict(pairs)] *)
Definition dict_of_pairs (l : list (K * V)) : dict := dict_merge [] l.

End Dict.

Arguments dict : clear implicits.

(** ** Dates *)

Record date : Type := Date { year : Z; month : Z; day : Z }.

Global Instance date_eq_dec : EqDecision date.
Proof. solve_decision. Defined.

Definition is_leap (y : Z) : bool :=
  (y mod 4 =? 0) && (negb (y mod 100 =? 0) || (y mod 400 =? 0)).

Definition days_in_month (y m : Z) : Z :=
  if m =? 2 then (if is_leap y then 29 else 28)
  else if (m =? 4) || (m =? 6) || (m =? 9) || (m =? 11) then 30
  else 31.

(** The values [datetime.date] admits (MINYEAR = 1, MAXYEAR = 9999). *)
Definition valid_date (d : date) : bool :=
  (1 <=? year d) && (year d <=? 9999) &&
  (1 <=? month d) && (month d <=? 12) &&
  (1 <=? day d) && (day d <=? days_in_month (year d) (month d)).

(** [str(date)], which is [date.isoformat()]. *)
Definition isoformat (d : date) : string :=
  Str.fmt4 (year d) +:+ "-" +:+ Str.fmt2 (month d) +:+ "-" +:+ Str.fmt2 (day d).

(** [date.strftime("%m%y")] and [date.strftime("%Y-%m")]; the latter for
    the years it is used with, of four digits. *)
Definition strftime_my (d : date) : string :=
  Str.fmt2 (month d) +:+ Str.fmt2 (year d mod 100).

Definition strftime_Y_m (d : date) : string :=
  Str.fmt4 (year d) +:+ "-" +:+ Str.fmt2 (month d).


(** ** Exceptions *)

(** The text of a [ParsingError], kept as the values its f-string
    interpolates. *)
Inductive parsing_message : Type :=
| InvalidColumns (keys : list (option string)) (expected : list string)
| FetchFailed (month_str url : string) (exchange_rates_file : option string)
              (err : string)
| BadStatus (status_code : Z)
| InvalidData.

Inductive exn : Type :=
| ParsingError (file : string) (message : parsing_message)
| ExchangeRateMissingError (currency : string) (on : date)
| AssertionError
| StopIteration
| KeyError (key : Z + string)
| TypeError
| ValueError
| XMLParseError
| InvalidOperation
| DivisionByZero
| Overflow.

Inductive result (A : Type) : Type :=
| Ok (a : A)
| Raise (e : exn).

Arguments Ok {A} a.
Arguments Raise {A} e.

Definition rbind {A B : Type} (r : result A) (f : A -> result B) : result B :=
  match r with
  | Ok a => f a
  | Raise e => Raise e
  end.

Notation "'let*' x ':=' r 'in' k" := (rbind r (fun x => k))
  (at level 10, x pattern, r at level 100, k at level 200).

(** [datetime.date.fromisoformat], for the format [YYYY-MM-DD]. *)
Definition fromisoformat (s : string) : result date :=
  if negb (Nat.eqb (String.length s) 10) then Raise ValueError else
  match Str.parse_digits (substring 0 4 s), String.get 4 s,
        Str.parse_digits (substring 5 2 s), String.get 7 s,
        Str.parse_digits (substring 8 2 s) with
  | Some y, Some "-"%char, Some m, Some "-"%char, Some d =>
      if valid_date (Date y m d) then Ok (Date y m d) else Raise ValueError
  | _, _, _, _, _ => Raise ValueError
  end.

(** ** The decimal module

    [Decimal] values are the triples of sign, coefficient and exponent of
    Python's decimal module, with its infinities and NaNs; arithmetic is
    that of the default context (28 digits, ROUND_HALF_EVEN, exponents
    within +-999999, traps on InvalidOperation, DivisionByZero and
    Overflow).  Strings are read as ASCII. *)

Module decimal.

Inductive Decimal : Type :=
| Finite (sign : bool) (coeff : N) (exp : Z)
| Infinity (sign : bool)
| NaN (sign : bool) (signaling : bool) (diag : N).

Global Instance Decimal_eq_dec : EqDecision Decimal.
Proof. solve_decision. Defined.

Definition prec : Z := 28.
Definition Emax : Z := 999999.
Definition Emin : Z := -999999.
Definition Etiny : Z := Emin - prec + 1.
Definition Etop : Z := Emax - prec + 1.

(** The digits of a coefficient ([_int]) and their number. *)
Definition digits (n : N) : string := NilZero.string_of_uint (N.to_uint n).
Definition len (n : N) : Z := Z.of_nat (String.length (digits n)).

Fixpoint zeros (n : nat) : string :=
  match n with
  | O => EmptyString
  | S n' => String "0" (zeros n')
  end.

Definition sign_str (s : bool) : string := if s then "-" else "".

(** ["%+d" % z] *)
Definition signed (z : Z) : string :=
  if z <? 0 then "-" +:+ digits (Z.to_N (- z)) else "+" +:+ digits (Z.to_N z).

(** [Decimal.__str__] *)
Definition to_str (d : Decimal) : string :=
  match d with
  | Infinity s => sign_str s +:+ "Infinity"
  | NaN s sig diag =>
      sign_str s +:+ (if sig then "sNaN" else "NaN") +:+
      (if (diag =? 0)%N then "" else digits diag)
  | Finite s c e =>
      let int := digits c in
      let n := len c in
      let leftdigits := e + n in
      let dotplace :=
        if (e <=? 0) && (-6 <? leftdigits) then leftdigits else 1 in
      let intpart :=
        if dotplace <=? 0 then "0"
        else if n <=? dotplace then int +:+ zeros (Z.to_nat (dotplace - n))
        else substring 0 (Z.to_nat dotplace) int in
      let fracpart :=
        if dotplace <=? 0 then "." +:+ zeros (Z.to_nat (- dotplace)) +:+ int
        else if n <=? dotplace then ""
        else "." +:+ substring (Z.to_nat dotplace) (Z.to_nat (n - dotplace)) int in
      let exp :=
        if leftdigits =? dotplace then ""
        else "E" +:+ signed (leftdigits - dotplace) in
      sign_str s +:+ intpart +:+ fracpart +:+ exp
  end.

(** *** Reading a string *)

Definition is_space (c : ascii) : bool :=
  let n := nat_of_ascii c in
  ((9 <=? n)%nat && (n <=? 13)%nat) || ((28 <=? n)%nat && (n <=? 32)%nat).

Fixpoint lstrip (s : string) : string :=
  match s with
  | String c s' => if is_space c then lstrip s' else s
  | EmptyString => EmptyString
  end.

Fixpoint rstrip (s : string) : string :=
  match s with
  | String c s' =>
      match rstrip s' with
      | EmptyString => if is_space c then EmptyString else String c EmptyString
      | r => String c r
      end
  | EmptyString => EmptyString
  end.

Fixpoint remove_underscores (s : string) : string :=
  match s with
  | String c s' =>
      if Ascii.eqb c "_" then remove_underscores s'
      else String c (remove_underscores s')
  | EmptyString => EmptyString
  end.

(** The longest prefix of digits, and what follows it. *)
Fixpoint span_digits (s : string) : string * string :=
  match s with
  | String c s' =>
      if Str.is_digit c
      then let '(ds, r) := span_digits s' in (String c ds, r)
      else (EmptyString, s)
  | EmptyString => (EmptyString, EmptyString)
  end.

Fixpoint all_digits (s : string) : bool :=
  match s with
  | String c s' => Str.is_digit c && all_digits s'
  | EmptyString => true
  end.

(** [int(s)] for a possibly empty string of digits. *)
Definition int_of_digits (s : string) : N :=
  Z.to_N (default 0 (Str.digits_from 0 s)).

Definition take_sign (s : string) : bool * string :=
  match s with
  | String "-" r => (true, r)
  | String "+" r => (false, r)
  | _ => (false, s)
  end.

(** [[-+]?\d+] up to the end of the string. *)
Definition parse_exp (s : string) : option Z :=
  let '(neg, r) := take_sign s in
  match Str.parse_digits r with
  | Some e => Some (if neg then - e else e)
  | None => None
  end.

(** The finite alternative of the parser's pattern: coefficient and
    exponent. *)
Definition parse_number (s : string) : option (N * Z) :=
  let '(intpart, r1) := span_digits s in
  let '(fracpart, r2) :=
    match r1 with
    | String "." r => span_digits r
    | _ => (EmptyString, r1)
    end in
  if String.eqb (intpart +:+ fracpart) "" then None else
  let coeff := int_of_digits (intpart +:+ fracpart) in
  let nfrac := Z.of_nat (String.length fracpart) in
  match r2 with
  | EmptyString => Some (coeff, - nfrac)
  | String c r3 =>
      if Ascii.eqb c "e" || Ascii.eqb c "E" then
        match parse_exp r3 with
        | Some e => Some (coeff, e - nfrac)
        | None => None
        end
      else None
  end.

(** The special alternatives: [Inf(inity)?] and [s?NaN\d*], in any case. *)
Definition parse_special (sign : bool) (s : string) : option Decimal :=
  let u := Str.upper s in
  if String.eqb u "INF" || String.eqb u "INFINITY" then Some (Infinity sign)
  else
    let '(signaling, r) :=
      match u with
      | String "S" r => (true, r)
      | _ => (false, u)
      end in
    if String.prefix "NAN" r && all_digits (substring 3 (String.length r) r)
    then Some (NaN sign signaling
                 (int_of_digits (substring 3 (String.length r) r)))
    else None.

(** [Decimal(value)] for a string. *)
Definition of_str (value : string) : result Decimal :=
  let s := remove_underscores (rstrip (lstrip value)) in
  let '(sign, body) := take_sign s in
  match parse_number body with
  | Some (c, e) => Ok (Finite sign c e)
  | None =>
      match parse_special sign body with
      | Some d => Ok d
      | None => Raise InvalidOperation
      end
  end.

(** *** Division *)

(** [Decimal._fix]: round to the context. *)
Definition fix_nan (s sig : bool) (diag : N) : Decimal :=
  NaN s sig (diag mod 10 ^ Z.to_N prec)%N.

Definition fix_finite (s : bool) (c : N) (e : Z) : result Decimal :=
  if (c =? 0)%N then Ok (Finite s 0 (Z.min (Z.max e Etiny) Emax)) else
  let exp_min := len c + e - prec in
  if Etop <? exp_min then Raise Overflow else
  let exp_min := Z.max exp_min Etiny in
  if e <? exp_min then
    let digits := len c + e - exp_min in
    (* fewer than no digits left: the value is below half a unit *)
    let c := if digits <? 0 then 1%N else c in
    let dropped := Z.to_N (if digits <? 0 then 1 else exp_min - e) in
    let q := (c / 10 ^ dropped)%N in
    let r := (c mod 10 ^ dropped)%N in
    let half := (5 * 10 ^ (dropped - 1))%N in
    let up :=
      if (r =? half)%N && N.even q then false else (half <=? r)%N in
    let coeff := if up then (q + 1)%N else q in
    let carried := up && (prec <? len coeff) in
    let coeff := if carried then (coeff / 10)%N else coeff in
    let exp_min := if carried then exp_min + 1 else exp_min in
    if Etop <? exp_min then Raise Overflow else Ok (Finite s coeff exp_min)
  else Ok (Finite s c e).

(** The loop of an exact quotient: drop trailing zeros while the
    exponent is below the ideal one. *)
Fixpoint strip_zeros (fuel : nat) (coeff : N) (exp ideal_exp : Z) : N * Z :=
  match fuel with
  | O => (coeff, exp)
  | S fuel' =>
      if (exp <? ideal_exp) && (coeff mod 10 =? 0)%N
      then strip_zeros fuel' (coeff / 10)%N (exp + 1) ideal_exp
      else (coeff, exp)
  end.

(** [Decimal.__truediv__] *)
Definition truediv (a b : Decimal) : result Decimal :=
  match a, b with
  | NaN _ true _, _ => Raise InvalidOperation
  | _, NaN _ true _ => Raise InvalidOperation
  | NaN s false d, _ => Ok (fix_nan s false d)
  | _, NaN s false d => Ok (fix_nan s false d)
  | Infinity _, Infinity _ => Raise InvalidOperation
  | Infinity sa, Finite sb _ _ => Ok (Infinity (xorb sa sb))
  | Finite sa _ _, Infinity sb => Ok (Finite (xorb sa sb) 0 Etiny)
  | Finite sa ca ea, Finite sb cb eb =>
      let sign := xorb sa sb in
      if (cb =? 0)%N then
        Raise (if (ca =? 0)%N then InvalidOperation else DivisionByZero)
      else if (ca =? 0)%N then fix_finite sign 0 (ea - eb)
      else
        let shift := len cb - len ca + prec + 1 in
        let exp := ea - eb - shift in
        let '(coeff, remainder) :=
          if 0 <=? shift
          then N.div_eucl (ca * 10 ^ Z.to_N shift) cb
          else N.div_eucl ca (cb * 10 ^ Z.to_N (- shift)) in
        if negb (remainder =? 0)%N then
          fix_finite sign (if (coeff mod 5 =? 0)%N then coeff + 1 else coeff)%N exp
        else
          let '(coeff, exp) :=
            strip_zeros (Z.to_nat (ea - eb - exp)) coeff exp (ea - eb) in
          fix_finite sign coeff exp
  end.

(** The rational number a finite [Decimal] stands for. *)
Definition value (d : Decimal) : option Q :=
  match d with
  | Finite s c e =>
      let m := inject_Z (if s then - Z.of_N c else Z.of_N c) in
      Some (m * Qpower (10 # 1) e)%Q
  | _ => None
  end.

End decimal.

Export decimal (Decimal).

(** ** The csv module *)

(** A csv file, as the rows [csv.reader] yields for it. *)
Definition csv_file : Type := list (list string).

(** A row of [csv.DictReader]: one value per field name ([None] where the
    row is too short) and, where the row is too long, the remaining
    values under the key [None]. *)
Record csv_row : Type := CsvRow {
  fields : dict string (option string);
  rest : option (list string)
}.

Definition dict_row (fieldnames row : list string) : csv_row :=
  let d := dict_of_pairs (zip fieldnames (map Some row)) in
  if (length fieldnames <? length row)%nat
  then CsvRow d (Some (drop (length fieldnames) row))
  else CsvRow (fold_left (fun d key => dict_set key None d)
                         (drop (length row) fieldnames) d) None.

Definition is_blank (row : list string) : bool :=
  match row with [] => true | _ => false end.

(** The rows [csv.DictReader(fin)] iterates over: the first row of the
    file gives the field names, blank rows are skipped. *)
Definition DictReader (fin : csv_file) : list csv_row :=
  match fin with
  | [] => []
  | fieldnames :: rows =>
      map (dict_row fieldnames) (List.filter (fun r => negb (is_blank r)) rows)
  end.

(** [next(it)] on what is left of an iterator. *)
Definition next {A : Type} (it : list A) : result (A * list A) :=
  match it with
  | [] => Raise StopIteration
  | x :: it' => Ok (x, it')
  end.

(** [line.keys()] *)
Definition keys (line : csv_row) : list (option string) :=
  map Some (dict_keys (fields line)) ++
  match rest line with Some _ => [None] | None => [] end.

(** [line[key]] *)
Definition getitem (key : string) (line : csv_row) : result (option string) :=
  match dict_get key (fields line) with
  | Some v => Ok v
  | None => Raise (KeyError (inr key))
  end.

(** *** sorted *)

Fixpoint insert_sorted (x : string) (l : list string) : list string :=
  match l with
  | [] => [x]
  | y :: l' => if String.leb x y then x :: l else y :: insert_sorted x l'
  end.

Definition sort_strings (l : list string) : list string :=
  fold_right insert_sorted [] l.

Definition is_None {A : Type} (o : option A) : bool :=
  match o with None => true | Some _ => false end.

(** [sorted(l)] for a list of strings and [None]s: comparing [None] with a
    string is a [TypeError]. *)
Definition sorted (l : list (option string)) : result (list (option string)) :=
  if existsb is_None l && (1 <? length l)%nat then Raise TypeError
  else if existsb is_None l then Ok l
  else Ok (map Some (sort_strings (omap id l))).

(** ** The converter's state and the world around it *)

Definition RateTable : Type := dict date (dict (option string) Decimal).

Definition EXCHANGE_RATES_HEADER : list string := ["month"; "currency"; "rate"].
Definition NEW_ENDPOINT_FROM_YEAR : Z := 2021.

(** An XML element: tag, text and children. *)
#[local] Set Warnings "-register-all".
Inductive Element : Type :=
| Elem (tag : string) (text : option string) (children : list Element).

Definition tag_of (e : Element) : string := match e with Elem t _ _ => t end.
Definition text_of (e : Element) : option string :=
  match e with Elem _ t _ => t end.
Definition children_of (e : Element) : list Element :=
  match e with Elem _ _ c => c end.

(** [e.find(tag)]: the first child with that tag. *)
Definition find (tag : string) (e : Element) : option Element :=
  List.find (fun c => String.eqb (tag_of c) tag) (children_of e).

(** A response of [session.get]; [tree] is what [ET.fromstring] makes of
    its text, [None] where the text is not well-formed XML. *)
Record Response : Type := {
  ok : bool;
  status_code : Z;
  tree : option Element
}.

(** [ET.fromstring(response.text)] *)
Definition fromstring (response : Response) : result Element :=
  match tree response with
  | Some root => Ok root
  | None => Raise XMLParseError
  end.

Inductive http_result : Type :=
| Failed (err : string)
| Responded (r : Response).

(** The world: the files, the remote sources, the requests sent so far and
    what was printed. *)
Record World : Type := {
  fs : gmap string csv_file;
  remote : string -> http_result;
  requests : list string;
  stdout : list string
}.

Record CurrencyConverter : Type := {
  exchange_rates_file : option string;
  cache : RateTable
}.

Record State : Type := { self : CurrencyConverter; world : World }.

(** ** Reading and writing the rates file *)

(** The body of the loop of [_read_exchange_rates_file]. *)
Definition read_line (exchange_rates_file : string) (cache : RateTable)
    (line : csv_row) : result RateTable :=
  let* expected := sorted (map Some EXCHANGE_RATES_HEADER) in
  let* found := sorted (keys line) in
  if negb (bool_decide (expected = found)) then
    Raise (ParsingError exchange_rates_file
             (InvalidColumns (keys line) EXCHANGE_RATES_HEADER))
  else
    let* month := getitem "month" line in
    let* date :=
      match month with
      | Some s => fromisoformat s
      | None => Raise TypeError
      end in
    let* rate := getitem "rate" line in
    let* rate :=
      match rate with
      | Some s => decimal.of_str s
      | None => Raise TypeError
      end in
    let rates := default [] (dict_get date cache) in
    let* currency := getitem "currency" line in
    Ok (dict_set date (dict_set currency rate rates) cache).

Fixpoint read_lines (exchange_rates_file : string) (cache : RateTable)
    (lines : list csv_row) : result RateTable :=
  match lines with
  | [] => Ok cache
  | line :: lines' =>
      let* cache' := read_line exchange_rates_file cache line in
      read_lines exchange_rates_file cache' lines'
  end.

Definition _read_exchange_rates_file (fs : gmap string csv_file)
    (exchange_rates_file : option string) : result RateTable :=
  let cache : RateTable := [] in
  match exchange_rates_file with
  | None => Ok cache
  | Some path =>
      match fs !! path with
      | None => Ok cache
      | Some fin =>
          let csv_reader := DictReader fin in
          (* skip the header *)
          let* skipped := next csv_reader in
          read_lines path cache (snd skipped)
      end
  end.

(** What [csv.writer] puts for a value: [None] is the empty string. *)
Definition csv_str (v : option string) : string := default "" v.

Definition month_rows (month : date) (rates : dict (option string) Decimal)
    : list (list string) :=
  map (fun '(symbol, rate) =>
         [isoformat month; csv_str symbol; decimal.to_str rate]) rates.

Definition data_rows (data : RateTable) : list (list string) :=
  flat_map (fun '(month, rates) => month_rows month rates) data.

Definition _write_exchange_rates_file (fs : gmap string csv_file)
    (exchange_rates_file : option string) (data : RateTable)
    : gmap string csv_file :=
  match exchange_rates_file with
  | None => fs
  | Some path => <[path := EXCHANGE_RATES_HEADER :: data_rows data]> fs
  end.

(** [CurrencyConverter.__init__] *)
Definition __init__ (w : World) (exchange_rates_file : option string)
    (initial_data : option RateTable) : result CurrencyConverter :=
  let* read_data := _read_exchange_rates_file (fs w) exchange_rates_file in
  Ok {| exchange_rates_file := exchange_rates_file;
        cache := dict_merge read_data (default [] initial_data) |}.

(** ** Fetching a month from HMRC *)

Definition crawl_slugs : dict Z string :=
  [ (2015, "20220504145914");
    (2016, "20220505063703");
    (2017, "20220409150415");
    (2018, "20220409144223");
    (2019, "20220409162528");
    (2020, "20220505131656") ].

Definition archive_url (slug month_str : string) : string :=
  "https://webarchive.nationalarchives.gov.uk/ukgwa/" +:+ slug +:+ "mp_/" +:+
  "http://www.hmrc.gov.uk/softwaredevelopers/rates/" +:+
  "exrates-monthly-" +:+ month_str +:+ ".xml".

Definition current_url (month_str : string) : string :=
  "https://www.trade-tariff.service.gov.uk/api/v2/" +:+
  "exchange_rates/files/monthly_xml_" +:+ month_str +:+ ".xml".

(** The first part of [_query_hmrc_api], up to the request: the month
    token and the url of the month's rates. *)
Definition resource_for (date : date) : result (string * string) :=
  if year date <? NEW_ENDPOINT_FROM_YEAR then
    let month_str := strftime_my date in
    let* slug :=
      match dict_get (year date) crawl_slugs with
      | Some slug => Ok slug
      | None => Raise (KeyError (inl (year date)))
      end in
    Ok (month_str, archive_url slug month_str)
  else
    let month_str := strftime_Y_m date in
    Ok (month_str, current_url month_str).

(** [str(getattr(e, "text", None))] for the result [e] of a [find]. *)
Definition text_str (e : option Element) : string :=
  match e ≫= text_of with
  | Some s => s
  | None => "None"
  end.

(** A [Decimal] is never the object [None]. *)
Definition Decimal_is_None (d : Decimal) : bool := false.

(** One step of the dict comprehension over the rows of the tree. *)
Definition add_rate (rates : dict (option string) Decimal) (row : Element)
    : result (dict (option string) Decimal) :=
  let currency := Str.upper (text_str (find "currencyCode" row)) in
  let* rate := decimal.of_str (text_str (find "rateNew" row)) in
  Ok (dict_set (Some currency) rate rates).

Fixpoint add_rates (rates : dict (option string) Decimal) (rows : list Element)
    : result (dict (option string) Decimal) :=
  match rows with
  | [] => Ok rates
  | row :: rows' =>
      let* rates' := add_rate rates row in
      add_rates rates' rows'
  end.

Definition send (url : string) (w : World) : World :=
  {| fs := fs w; remote := remote w;
     requests := requests w ++ [url]; stdout := stdout w |}.

Definition print (line : string) (w : World) : World :=
  {| fs := fs w; remote := remote w;
     requests := requests w; stdout := stdout w ++ [line] |}.

Definition _query_hmrc_api (st : State) (date : date) : result unit * State :=
  match resource_for date with
  | Raise e => (Raise e, st)
  | Ok (month_str, url) =>
      let conv := self st in
      let w := send url (world st) in
      let st := {| self := conv; world := w |} in
      match remote w url with
      | Failed err =>
          (Raise (ParsingError url
                    (FetchFailed month_str url (exchange_rates_file conv) err)),
           st)
      | Responded response =>
          if negb (ok response) then
            (Raise (ParsingError url (BadStatus (status_code response))), st)
          else
            match (let* tree := fromstring response in
                   add_rates [] (children_of tree)) with
            | Raise e => (Raise e, st)
            | Ok rates =>
                if dict_mem None rates
                   || existsb Decimal_is_None (dict_values rates)
                then (Raise (ParsingError url InvalidData), st)
                else
                  let cache' := dict_set date rates (cache conv) in
                  let fs' :=
                    _write_exchange_rates_file (fs w)
                      (exchange_rates_file conv) cache' in
                  (Ok tt,
                   {| self := {| exchange_rates_file := exchange_rates_file conv;
                                 cache := cache' |};
                      world := {| fs := fs'; remote := remote w;
                                  requests := requests w;
                                  stdout := stdout w |} |})
            end
      end
  end.

(** ** Rates and conversion *)

(** [self.cache[date]] *)
Definition cache_at (st : State) (date : date)
    : result (dict (option string) Decimal) :=
  match dict_get date (cache (self st)) with
  | Some rates => Ok rates
  | None => Raise (KeyError (inr (isoformat date)))
  end.

(** Modelled from the spec: the helper [is_date] of [cgt_calc.dates], which
    is not part of the source at hand; "date must be a valid calendar date
    instance (contract, not merely a string)".  Every value of type [date]
    is such an instance. *)
Definition is_date (d : date) : bool := true.

(** The state after the line that announces a fetch is printed. *)
Definition announce (st : State) (date : date) : State :=
  {| self := self st;
     world := print ("Fetching currency conversions for date %s "
                       +:+ isoformat date) (world st) |}.

Definition currency_to_gbp_rate (st : State) (currency : string) (date : date)
    : result Decimal * State :=
  if negb (is_date date) then (Raise AssertionError, st) else
  let '(fetched, st) :=
    if negb (dict_mem date (cache (self st)))
    then _query_hmrc_api (announce st date) date
    else (Ok tt, st) in
  match fetched with
  | Raise e => (Raise e, st)
  | Ok _ =>
      match cache_at st date with
      | Raise e => (Raise e, st)
      | Ok rates =>
          match dict_get (Some currency) rates with
          | None => (Raise (ExchangeRateMissingError currency date), st)
          | Some rate => (Ok rate, st)
          end
      end
  end.

Definition to_gbp (st : State) (amount : Decimal) (currency : string)
    (date : date) : result Decimal * State :=
  if String.eqb currency "GBP" then (Ok amount, st)
  else
    let '(rate, st) := currency_to_gbp_rate st (Str.upper currency) date in
    (let* rate := rate in decimal.truediv amount rate, st).

(** The fields of a [BrokerTransaction] the converter reads. *)
Record BrokerTransaction : Type := {
  transaction_currency : string;
  transaction_date : date
}.

Definition to_gbp_for (st : State) (amount : Decimal)
    (transaction : BrokerTransaction) : result Decimal * State :=
  to_gbp st amount (transaction_currency transaction)
         (transaction_date transaction).

(** ** Vocabulary of the specification *)

(** The month of [date] resolves from [st]: it is in the cache already, or
    it is not and the fetch succeeds.  [st'] is the state reached and
    [rates] the month's mapping there. *)
Definition month_resolves (st : State) (date : date) (st' : State)
    (rates : dict (option string) Decimal) : Prop :=
  (dict_get date (cache (self st)) = Some rates /\ st' = st) \/
  (dict_get date (cache (self st)) = None /\
   _query_hmrc_api (announce st date) date = (Ok tt, st') /\
   dict_get date (cache (self st')) = Some rates).

(** [quotient] is the exact quotient of [amount] by [rate], as rational
    numbers. *)
Definition exact_quotient (amount rate quotient : Decimal) : Prop :=
  match decimal.value amount, decimal.value rate, decimal.value quotient with
  | Some a, Some r, Some q => (~ r == 0 /\ q == a / r)%Q
  | _, _, _ => False
  end.

(** A table the rates file can hold: a dict (no key twice) of months that
    are dates, each with a dict, not empty, of rates under a code that is a
    string, which the decimal module reads back from the string it writes
    for them. *)
Definition storable_rate (entry : option string * Decimal) : Prop :=
  is_Some (fst entry) /\
  decimal.of_str (decimal.to_str (snd entry)) = Ok (snd entry).

Definition storable_month (entry : date * dict (option string) Decimal)
    : Prop :=
  valid_date (fst entry) = true /\
  snd entry <> [] /\
  NoDup (dict_keys (snd entry)) /\
  Forall storable_rate (snd entry).

Definition storable (data : RateTable) : Prop :=
  NoDup (dict_keys data) /\ Forall storable_month data.


(** A world with no file, where every request fails. *)
Definition offline : World :=
  {| fs := ∅; remote := fun _ => Failed "offline";
     requests := []; stdout := [] |}.

(** A world with no file, where every request is answered with [tree]. *)
Definition serving (root : Element) : World :=
  {| fs := ∅;
     remote := fun _ =>
       Responded {| ok := true; status_code := 200; tree := Some root |};
     requests := []; stdout := [] |}.

(** The same world with [content] stored at [path]. *)
Definition put_file (path : string) (content : csv_file) (w : World) : World :=
  {| fs := <[path := content]> (fs w); remote := remote w;
     requests := requests w; stdout := stdout w |}.

(** A converter that is not backed by a file. *)
Definition converter (table : RateTable) : CurrencyConverter :=
  {| exchange_rates_file := None; cache := table |}.

(** A month of rates as HMRC publishes it, here with two currencies. *)
Definition exchange_rate (code rate : string) : Element :=
  Elem "exchangeRate" None
    [ Elem "countryName" (Some "-") [];
      Elem "currencyCode" (Some code) [];
      Elem "rateNew" (Some rate) [] ].

Definition two_rates : Element :=
  Elem "exchangeRateMonthList" None
    [ exchange_rate "USD" "1.3"; exchange_rate "eur" "1.1" ].

(** A month where one row has no currency code, and one where a row has
    no rate. *)
Definition month_without_code : Element :=
  Elem "exchangeRateMonthList" None
    [ exchange_rate "USD" "1.3";
      Elem "exchangeRate" None [ Elem "rateNew" (Some "1.5") [] ] ].

Definition month_without_rate : Element :=
  Elem "exchangeRateMonthList" None
    [ exchange_rate "USD" "1.3";
      Elem "exchangeRate" None [ Elem "currencyCode" (Some "EUR") [] ] ].

(** The state a converter with an empty table reaches when it fetches
    January 2021 from a world that serves [two_rates]. *)
Definition january : date := Date 2021 1 1.

Definition before_fetch : State :=
  {| self := converter []; world := serving two_rates |}.

Definition january_rates : dict (option string) Decimal :=
  [ (Some "USD", decimal.Finite false 13 (-1));
    (Some "EUR", decimal.Finite false 11 (-1)) ].

Definition after_fetch : State :=
  {| self := converter [(january, january_rates)];
     world :=
       {| fs := ∅;
          remote := remote (serving two_rates);
          requests := [current_url "2021-01"];
          stdout := ["Fetching currency conversions for date %s 2021-01-01"] |}
  |}.

(** A key of a month's mapping that is a string in upper case. *)
Definition upper_code (key : option string) : Prop :=
  exists code, key = Some code /\ Str.upper code = code.

(** A month where the code of the first row comes again in the last. *)
Definition month_with_repeat : Element :=
  Elem "exchangeRateMonthList" None
    [ exchange_rate "USD" "1.3"; exchange_rate "EUR" "1.1";
      exchange_rate "usd" "1.4" ].

(** A converter with a rate of zero in its table. *)
Definition zero_rate_state : State :=
  {| self := converter [(january, [(Some "USD", decimal.Finite false 0 0)])];
     world := offline |}.

(** * Properties *)

(** ** Dictionaries *)

Section DictFacts.
Context {K V : Type} `{EqDecision K}.
Implicit Types (d : dict K V) (k : K) (v : V).

Lemma dict_get_set_eq d k v : dict_get k (dict_set k v d) = Some v.
Proof.
  induction d as [|[k' v'] d IH]; simpl.
  - by rewrite decide_True.
  - destruct (decide (k = k')) as [->|Hne]; simpl.
    + by rewrite decide_True.
    + by rewrite decide_False.
Qed.

Lemma dict_get_set_ne d k k' v :
  k' <> k -> dict_get k' (dict_set k v d) = dict_get k' d.
Proof.
  intros Hne. induction d as [|[k0 v0] d IH]; simpl.
  - by rewrite decide_False.
  - destruct (decide (k = k0)) as [->|Hk]; simpl.
    + by rewrite !decide_False.
    + destruct (decide (k' = k0)); [done|apply IH].
Qed.

Lemma dict_mem_get d k :
  dict_mem k d = true <-> exists v, dict_get k d = Some v.
Proof.
  unfold dict_mem. destruct (dict_get k d); split; eauto; try done.
  by intros [v Hv].
Qed.

Lemma dict_get_fresh d k : k ∉ dict_keys d -> dict_get k d = None.
Proof.
  induction d as [|[k' v'] d IH]; [done|]. simpl.
  intros Hk. apply not_elem_of_cons in Hk as [Hne Hk].
  rewrite decide_False by done. by apply IH.
Qed.

Lemma dict_get_app_fresh acc d k :
  k ∉ dict_keys acc -> dict_get k (acc ++ d) = dict_get k d.
Proof.
  induction acc as [|[k' v'] acc IH]; [done|]. simpl.
  intros Hk. apply not_elem_of_cons in Hk as [Hne Hk].
  rewrite decide_False by done. by apply IH.
Qed.

Lemma dict_set_app_fresh acc d k v :
  k ∉ dict_keys acc -> dict_set k v (acc ++ d) = acc ++ dict_set k v d.
Proof.
  induction acc as [|[k' v'] acc IH]; [done|]. simpl.
  intros Hk. apply not_elem_of_cons in Hk as [Hne Hk].
  rewrite decide_False by done. by rewrite IH.
Qed.

Lemma dict_set_fresh d k v : k ∉ dict_keys d -> dict_set k v d = d ++ [(k, v)].
Proof.
  intros Hk. rewrite <- (app_nil_r d) at 1. by rewrite dict_set_app_fresh.
Qed.

End DictFacts.

(** ** Dates *)

Lemma digit_range (n : Z) : (48 <= 48 + Z.to_nat (n mod 10) <= 57)%nat.
Proof. pose proof (Z.mod_pos_bound n 10 eq_refl). lia. Qed.

Lemma digit_is_digit (n : Z) : Str.is_digit (Str.digit n) = true.
Proof.
  unfold Str.is_digit, Str.digit. pose proof (digit_range n) as H.
  rewrite nat_ascii_embedding by lia.
  apply andb_true_iff. split; apply Nat.leb_le; lia.
Qed.

Lemma digit_val_digit (n : Z) : Str.digit_val (Str.digit n) = n mod 10.
Proof.
  unfold Str.digit_val, Str.digit. pose proof (digit_range n) as H.
  rewrite nat_ascii_embedding by lia.
  pose proof (Z.mod_pos_bound n 10 eq_refl). lia.
Qed.

Lemma parse_fmt2 (n : Z) :
  0 <= n < 100 -> Str.parse_digits (Str.fmt2 n) = Some n.
Proof.
  intros Hn. unfold Str.parse_digits, Str.fmt2. cbn [Str.digits_from].
  rewrite !digit_is_digit, !digit_val_digit. f_equal.
  Z.div_mod_to_equations. lia.
Qed.

Lemma parse_fmt4 (n : Z) :
  0 <= n < 10000 -> Str.parse_digits (Str.fmt4 n) = Some n.
Proof.
  intros Hn. unfold Str.parse_digits, Str.fmt4. cbn [Str.digits_from].
  rewrite !digit_is_digit, !digit_val_digit. f_equal.
  Z.div_mod_to_equations. lia.
Qed.

Lemma valid_date_bounds (d : date) :
  valid_date d = true ->
  0 <= year d < 10000 /\ 0 <= month d < 100 /\ 0 <= day d < 100.
Proof.
  unfold valid_date, days_in_month. intros Hv.
  repeat (apply andb_true_iff in Hv as [Hv ?]).
  assert (day d <= 31); [|lia].
  destruct (month d =? 2); [destruct (is_leap (year d)); lia|].
  destruct (_ || _); lia.
Qed.

(** A date is read back from its ISO form. *)
Lemma fromisoformat_isoformat (d : date) :
  valid_date d = true -> fromisoformat (isoformat d) = Ok d.
Proof.
  intros Hv. destruct (valid_date_bounds d Hv) as (Hy & Hm & Hd).
  destruct d as [y m dd]. cbn [year month day] in *.
  unfold fromisoformat, isoformat. cbn [year month day].
  change (Str.fmt4 y +:+ "-" +:+ Str.fmt2 m +:+ "-" +:+ Str.fmt2 dd)
    with (String (Str.digit (y / 1000)) (String (Str.digit (y / 100))
           (String (Str.digit (y / 10)) (String (Str.digit y)
           (String "-" (String (Str.digit (m / 10)) (String (Str.digit m)
           (String "-" (String (Str.digit (dd / 10))
           (String (Str.digit dd) "")))))))))).
  cbn [String.length Nat.eqb negb substring String.get].
  change (String (Str.digit (y / 1000)) (String (Str.digit (y / 100))
           (String (Str.digit (y / 10)) (String (Str.digit y) ""))))
    with (Str.fmt4 y).
  change (String (Str.digit (m / 10)) (String (Str.digit m) ""))
    with (Str.fmt2 m).
  change (String (Str.digit (dd / 10)) (String (Str.digit dd) ""))
    with (Str.fmt2 dd).
  rewrite parse_fmt4, !parse_fmt2 by done. by rewrite Hv.
Qed.

(** ** The endpoint of a month *)

Definition archive_host : string := "https://webarchive.nationalarchives.gov.uk/".
Definition current_host : string := "https://www.trade-tariff.service.gov.uk/".

Lemma prefix_app (sub post : string) : String.prefix sub (sub +:+ post) = true.
Proof.
  induction sub as [|c sub IH]; simpl.
  - by destruct post.
  - destruct (ascii_dec c c); [apply IH|done].
Qed.

Lemma contains_prefix (sub s : string) :
  String.prefix sub s = true -> Str.contains sub s = true.
Proof. intros H. destruct s; simpl in *; rewrite H; done. Qed.

Lemma contains_append_l (sub pre s : string) :
  Str.contains sub s = true -> Str.contains sub (pre +:+ s) = true.
Proof.
  intros H. induction pre as [|c pre IH]; [done|].
  change (Str.contains sub (String c (pre +:+ s)) = true).
  simpl. rewrite IH. apply orb_true_r.
Qed.

Lemma contains_app (pre sub post : string) :
  Str.contains sub (pre +:+ sub +:+ post) = true.
Proof. apply contains_append_l, contains_prefix, prefix_app. Qed.

Lemma archive_url_token (slug month_str : string) :
  String.prefix archive_host (archive_url slug month_str) = true /\
  Str.contains month_str (archive_url slug month_str) = true /\
  Str.contains slug (archive_url slug month_str) = true.
Proof.
  split; [reflexivity|]. unfold archive_url. split.
  - do 4 apply contains_append_l. apply contains_app.
  - apply contains_app.
Qed.

Lemma current_url_token (month_str : string) :
  String.prefix current_host (current_url month_str) = true /\
  Str.contains month_str (current_url month_str) = true.
Proof.
  split; [reflexivity|]. unfold current_url.
  apply contains_append_l, contains_app.
Qed.

Lemma crawl_slugs_range (y : Z) :
  2015 <= y < 2021 -> exists slug, dict_get y crawl_slugs = Some slug.
Proof.
  intros Hy.
  assert (y = 2015 \/ y = 2016 \/ y = 2017 \/ y = 2018 \/ y = 2019 \/ y = 2020)
    as Hcases by lia.
  destruct Hcases as [->|[->|[->|[->|[->| ->]]]]]; eexists; reflexivity.
Qed.

(** C6: the endpoint selector sends 2016-12-01 to an archive url that holds
    the crawl slug 20220505063703 and the month token 1216, and 2021-01-01
    to a url of the trade-tariff host that holds the token 2021-01 and not
    the archive host.  In general a url chosen for a year below 2021 is an
    archive url with the token MMYY, there is one for every year from
    2015 to 2020, and every year from 2021 on gets the url of the current
    endpoint with the token YYYY-MM. *)
Theorem endpoint_selection :
  (exists url,
      resource_for (Date 2016 12 1) = Ok ("1216", url) /\
      String.prefix archive_host url = true /\
      Str.contains "20220505063703" url = true /\
      Str.contains "1216" url = true) /\
  (exists url,
      resource_for (Date 2021 1 1) = Ok ("2021-01", url) /\
      String.prefix current_host url = true /\
      Str.contains "2021-01" url = true /\
      Str.contains "webarchive.nationalarchives.gov.uk" url = false) /\
  (forall d month_str url,
      year d < 2021 ->
      resource_for d = Ok (month_str, url) ->
      month_str = Str.fmt2 (month d) +:+ Str.fmt2 (year d mod 100) /\
      String.prefix archive_host url = true /\
      Str.contains month_str url = true) /\
  (forall d,
      2015 <= year d < 2021 ->
      exists month_str url, resource_for d = Ok (month_str, url)) /\
  (forall d,
      2021 <= year d ->
      exists url,
        resource_for d
          = Ok (Str.fmt4 (year d) +:+ "-" +:+ Str.fmt2 (month d), url) /\
        String.prefix current_host url = true /\
        Str.contains (Str.fmt4 (year d) +:+ "-" +:+ Str.fmt2 (month d)) url
          = true).
Proof.
  split; [|split; [|split; [|split]]].
  - eexists. repeat split; vm_compute; reflexivity.
  - eexists. repeat split; vm_compute; reflexivity.
  - intros d month_str url Hy. unfold resource_for, NEW_ENDPOINT_FROM_YEAR.
    destruct (Z.ltb_spec (year d) 2021) as [_|?]; [|lia].
    destruct (dict_get (year d) crawl_slugs) as [slug|]; simpl; [|done].
    intros [= <- <-]. split; [done|].
    destruct (archive_url_token slug (strftime_my d)) as (? & ? & _). done.
  - intros d Hy. unfold resource_for, NEW_ENDPOINT_FROM_YEAR.
    destruct (Z.ltb_spec (year d) 2021) as [_|?]; [|lia].
    destruct (crawl_slugs_range (year d) Hy) as [slug ->]. simpl. eauto.
  - intros d Hy. unfold resource_for, NEW_ENDPOINT_FROM_YEAR.
    destruct (Z.ltb_spec (year d) 2021) as [?|_]; [lia|].
    eexists. split; [reflexivity|]. apply current_url_token.
Qed.

Lemma endpoint_selection_witness :
  year (Date 2019 7 15) < 2021 /\
  2021 <= year (Date 2023 4 1) /\
  String.prefix archive_host
    (archive_url "20220409162528" "0719") = true /\
  exists url,
    resource_for (Date 2023 4 1) = Ok ("2023-04", url) /\
    String.prefix current_host url = true /\
    Str.contains "2023-04" url = true.
Proof.
  destruct endpoint_selection as (_ & _ & Harchive & _ & Hcurrent).
  split; [simpl; lia|]. split; [simpl; lia|]. split.
  - apply (Harchive (Date 2019 7 15) "0719"); [simpl; lia|reflexivity].
  - apply (Hcurrent (Date 2023 4 1)). simpl; lia.
Defined.

(** C7: for every date of 2015 or later the endpoint selector, a function
    of the date alone, returns a url: an https url of the archive with the
    year's crawl slug for 2015 to 2020, and the url of the current endpoint
    from 2021 on. *)
Theorem resource_for_total (d : date) :
  2015 <= year d ->
  exists month_str url,
    resource_for d = Ok (month_str, url) /\
    String.prefix "https://" url = true /\
    (year d < 2021 ->
       exists slug, dict_get (year d) crawl_slugs = Some slug /\
                    url = archive_url slug month_str) /\
    (2021 <= year d -> url = current_url month_str).
Proof.
  intros Hy. unfold resource_for, NEW_ENDPOINT_FROM_YEAR.
  destruct (Z.ltb_spec (year d) 2021) as [Hlt|Hge].
  - destruct (crawl_slugs_range (year d)) as [slug Hslug]; [lia|].
    rewrite Hslug. simpl. do 2 eexists. split; [reflexivity|].
    split; [reflexivity|]. split; [|lia]. eauto.
  - do 2 eexists. split; [reflexivity|]. split; [reflexivity|].
    split; [lia|done].
Qed.

Lemma resource_for_total_witness :
  exists month_str url,
    resource_for (Date 2015 11 1) = Ok (month_str, url) /\
    String.prefix "https://" url = true /\
    (year (Date 2015 11 1) < 2021 ->
       exists slug, dict_get (year (Date 2015 11 1)) crawl_slugs = Some slug /\
                    url = archive_url slug month_str) /\
    (2021 <= year (Date 2015 11 1) -> url = current_url month_str).
Proof. apply (resource_for_total (Date 2015 11 1)). simpl. lia. Defined.

(** Below 2015 the table of crawl slugs has no entry. *)
Lemma resource_for_before_2015 (d : date) :
  year d < 2015 -> resource_for d = Raise (KeyError (inl (year d))).
Proof.
  intros Hy. unfold resource_for, NEW_ENDPOINT_FROM_YEAR.
  destruct (Z.ltb_spec (year d) 2021) as [_|?]; [|lia].
  assert (dict_get (year d) crawl_slugs = None) as ->; [|done].
  unfold crawl_slugs. simpl.
  repeat (destruct (decide _); [lia|]). done.
Qed.

(** ** Conversion *)

(** C9: converting an amount that is in GBP already returns the amount, in
    whatever state the converter and the world are, and leaves them as
    they were: nothing is looked up, requested, printed or divided. *)
Theorem to_gbp_reference_identity (st : State) (amount : Decimal) (d : date) :
  to_gbp st amount "GBP" d = (Ok amount, st).
Proof. unfold to_gbp. rewrite String.eqb_refl. reflexivity. Qed.

Lemma to_gbp_for_reference_identity (st : State) (amount : Decimal) (d : date) :
  to_gbp_for st amount
    {| transaction_currency := "GBP"; transaction_date := d |}
  = (Ok amount, st).
Proof. reflexivity. Qed.

Lemma rate_when_resolved (st st' : State) (currency : string) (d : date)
    (rates : dict (option string) Decimal) :
  month_resolves st d st' rates ->
  currency_to_gbp_rate st currency d =
    (match dict_get (Some currency) rates with
     | Some rate => Ok rate
     | None => Raise (ExchangeRateMissingError currency d)
     end, st').
Proof.
  unfold currency_to_gbp_rate, dict_mem. simpl.
  intros [[Hin ->]|(Hout & Hfetch & Hin)].
  - rewrite Hin. simpl. unfold cache_at. rewrite Hin.
    by destruct (dict_get (Some currency) rates).
  - rewrite Hout. simpl. rewrite Hfetch. unfold cache_at. rewrite Hin.
    by destruct (dict_get (Some currency) rates).
Qed.

Lemma resolved_stays (st st' : State) (d : date)
    (rates : dict (option string) Decimal) :
  month_resolves st d st' rates -> month_resolves st' d st' rates.
Proof. intros [[Hin ->]|(_ & _ & Hin)]; left; done. Qed.

(** C5: when the month of the date resolves (from the cache, or by a fetch
    that succeeds) and its mapping has no entry for the upper-cased
    currency code, the rate lookup raises [ExchangeRateMissingError] with
    that code and date, and so does the conversion; every code the mapping
    does have still resolves to its rate afterwards. *)
Theorem missing_currency (st st' : State) (currency : string) (d : date)
    (rates : dict (option string) Decimal) :
  month_resolves st d st' rates ->
  dict_get (Some (Str.upper currency)) rates = None ->
  currency_to_gbp_rate st (Str.upper currency) d
    = (Raise (ExchangeRateMissingError (Str.upper currency) d), st') /\
  (currency <> "GBP" ->
   forall amount,
     to_gbp st amount currency d
       = (Raise (ExchangeRateMissingError (Str.upper currency) d), st')) /\
  (forall other rate,
     dict_get (Some other) rates = Some rate ->
     currency_to_gbp_rate st' other d = (Ok rate, st')).
Proof.
  intros Hres Hmiss. split; [|split].
  - rewrite (rate_when_resolved _ _ _ _ _ Hres), Hmiss. done.
  - intros Hgbp amount. unfold to_gbp.
    destruct (String.eqb_spec currency "GBP") as [?|_]; [done|].
    rewrite (rate_when_resolved _ _ _ _ _ Hres), Hmiss. done.
  - intros other rate Hother.
    rewrite (rate_when_resolved _ _ _ _ _ (resolved_stays _ _ _ _ Hres)).
    by rewrite Hother.
Qed.

Lemma january_resolves :
  month_resolves before_fetch january after_fetch january_rates.
Proof. right. repeat split; vm_compute; reflexivity. Qed.

Lemma missing_currency_witness :
  currency_to_gbp_rate before_fetch (Str.upper "jpy") january
    = (Raise (ExchangeRateMissingError (Str.upper "jpy") january), after_fetch) /\
  ("jpy" <> "GBP" ->
   forall amount,
     to_gbp before_fetch amount "jpy" january
       = (Raise (ExchangeRateMissingError (Str.upper "jpy") january),
          after_fetch)) /\
  (forall other rate,
     dict_get (Some other) january_rates = Some rate ->
     currency_to_gbp_rate after_fetch other january = (Ok rate, after_fetch)).
Proof.
  apply (missing_currency before_fetch after_fetch "jpy" january january_rates).
  - apply january_resolves.
  - reflexivity.
Defined.

(** C8, as amended: for a currency other than the literal "GBP" whose
    upper-cased code has the rate [rate] in the month the date resolves
    to, the conversion is the quotient [amount / rate] of the decimal
    module, computed in its context; the converter rounds nothing
    itself. *)
Theorem to_gbp_divides (st st' : State) (amount : Decimal) (currency : string)
    (d : date) (rates : dict (option string) Decimal) (rate : Decimal) :
  currency <> "GBP" ->
  month_resolves st d st' rates ->
  dict_get (Some (Str.upper currency)) rates = Some rate ->
  to_gbp st amount currency d = (decimal.truediv amount rate, st').
Proof.
  intros Hgbp Hres Hrate. unfold to_gbp.
  destruct (String.eqb_spec currency "GBP") as [?|_]; [done|].
  rewrite (rate_when_resolved _ _ _ _ _ Hres), Hrate. done.
Qed.

Lemma to_gbp_divides_witness :
  to_gbp before_fetch (decimal.Finite false 26 0) "usd" january
    = (decimal.truediv (decimal.Finite false 26 0)
         (decimal.Finite false 13 (-1)), after_fetch).
Proof.
  apply (to_gbp_divides before_fetch after_fetch (decimal.Finite false 26 0)
           "usd" january january_rates).
  - discriminate.
  - apply january_resolves.
  - reflexivity.
Defined.

(** C8, as stated, fails twice.  A rate stored for GBP is never used: ten
    pounds at a stored rate of 2 convert to ten, not five.  And the
    quotient is rounded to the 28 digits of the context: 1 at a rate of 3
    converts to 0.3333333333333333333333333333, which is not a third. *)
Lemma to_gbp_not_exact_quotient :
  let one := decimal.Finite false 1 0 in
  let two := decimal.Finite false 2 0 in
  let three := decimal.Finite false 3 0 in
  let ten := decimal.Finite false 10 0 in
  let rates := [(Some "GBP", two); (Some "USD", three)] in
  let st := {| self := converter [(january, rates)]; world := offline |} in
  (dict_get (Some (Str.upper "GBP")) rates = Some two /\
   to_gbp st ten "GBP" january = (Ok ten, st) /\
   ~ exact_quotient ten two ten) /\
  (dict_get (Some (Str.upper "usd")) rates = Some three /\
   to_gbp st one "usd" january
     = (Ok (decimal.Finite false 3333333333333333333333333333 (-28)), st) /\
   ~ exact_quotient one three
       (decimal.Finite false 3333333333333333333333333333 (-28))).
Proof.
  repeat split; try (vm_compute; reflexivity).
  - unfold exact_quotient. simpl. intros [_ H]. vm_compute in H. discriminate.
  - unfold exact_quotient. simpl. intros [_ H]. vm_compute in H. discriminate.
Qed.

(** ** Fetching *)

Lemma query_transport_failure (st : State) (d : date)
    (month_str url err : string) :
  resource_for d = Ok (month_str, url) ->
  remote (world st) url = Failed err ->
  _query_hmrc_api st d =
    (Raise (ParsingError url
              (FetchFailed month_str url (exchange_rates_file (self st)) err)),
     {| self := self st; world := send url (world st) |}).
Proof.
  intros Hurl Hfail. unfold _query_hmrc_api. rewrite Hurl. simpl.
  by rewrite Hfail.
Qed.

Lemma query_bad_status (st : State) (d : date) (month_str url : string)
    (r : Response) :
  resource_for d = Ok (month_str, url) ->
  remote (world st) url = Responded r ->
  ok r = false ->
  _query_hmrc_api st d =
    (Raise (ParsingError url (BadStatus (status_code r))),
     {| self := self st; world := send url (world st) |}).
Proof.
  intros Hurl Hresp Hok. unfold _query_hmrc_api. rewrite Hurl. simpl.
  by rewrite Hresp, Hok.
Qed.

Lemma rate_fetch_raises (st st' : State) (currency : string) (d : date)
    (e : exn) :
  dict_get d (cache (self st)) = None ->
  _query_hmrc_api (announce st d) d = (Raise e, st') ->
  currency_to_gbp_rate st currency d = (Raise e, st').
Proof.
  intros Hmiss Hfetch. unfold currency_to_gbp_rate, dict_mem. simpl.
  by rewrite Hmiss, Hfetch.
Qed.

(** C4: when the request for the month of a date fails in transport, or is
    answered with a status that is not a success, the fetch raises a
    [ParsingError] for the url; the rate table and the files are what they
    were before.  A rate lookup that had to fetch fails the same way. *)
Theorem fetch_failure_keeps_state (st : State) (d : date)
    (month_str url : string) :
  resource_for d = Ok (month_str, url) ->
  (exists err, remote (world st) url = Failed err) \/
  (exists r, remote (world st) url = Responded r /\ ok r = false) ->
  exists message,
    (fst (_query_hmrc_api st d) = Raise (ParsingError url message) /\
     cache (self (snd (_query_hmrc_api st d))) = cache (self st) /\
     fs (world (snd (_query_hmrc_api st d))) = fs (world st)) /\
    (forall currency,
       dict_get d (cache (self st)) = None ->
       fst (currency_to_gbp_rate st currency d)
         = Raise (ParsingError url message) /\
       cache (self (snd (currency_to_gbp_rate st currency d)))
         = cache (self st) /\
       fs (world (snd (currency_to_gbp_rate st currency d)))
         = fs (world st)).
Proof.
  intros Hurl [[err Hfail]|(r & Hresp & Hok)].
  - eexists. split.
    + by rewrite (query_transport_failure _ _ _ _ _ Hurl Hfail).
    + intros currency Hmiss.
      rewrite (rate_fetch_raises _ _ currency _ _ Hmiss
                 (query_transport_failure (announce st d) _ _ _ _ Hurl Hfail)).
      done.
  - eexists. split.
    + by rewrite (query_bad_status _ _ _ _ _ Hurl Hresp Hok).
    + intros currency Hmiss.
      rewrite (rate_fetch_raises _ _ currency _ _ Hmiss
                 (query_bad_status (announce st d) _ _ _ _ Hurl Hresp Hok)).
      done.
Qed.

Lemma fetch_failure_keeps_state_witness :
  let st := {| self := converter []; world := offline |} in
  let d := Date 2019 7 1 in
  exists message,
    (fst (_query_hmrc_api st d)
       = Raise (ParsingError (archive_url "20220409162528" "0719") message) /\
     cache (self (snd (_query_hmrc_api st d))) = cache (self st) /\
     fs (world (snd (_query_hmrc_api st d))) = fs (world st)) /\
    (forall currency,
       dict_get d (cache (self st)) = None ->
       fst (currency_to_gbp_rate st currency d)
         = Raise (ParsingError (archive_url "20220409162528" "0719") message) /\
       cache (self (snd (currency_to_gbp_rate st currency d)))
         = cache (self st) /\
       fs (world (snd (currency_to_gbp_rate st currency d)))
         = fs (world st)).
Proof.
  apply (fetch_failure_keeps_state
           {| self := converter []; world := offline |} (Date 2019 7 1) "0719").
  - reflexivity.
  - left. exists "offline". reflexivity.
Defined.

(** A successful fetch stores the month under the date asked for. *)
Lemma query_success_cached (st st' : State) (d : date) :
  _query_hmrc_api st d = (Ok tt, st') ->
  exists rates, dict_get d (cache (self st')) = Some rates.
Proof.
  unfold _query_hmrc_api.
  destruct (resource_for d) as [[month_str url]|e]; [|done].
  destruct (remote _ url) as [err|r]; [done|].
  destruct (negb (ok r)); [done|].
  destruct (let* tree := fromstring r in add_rates [] (children_of tree))
    as [rates|e]; [|done].
  destruct (_ || _); [done|].
  intros [= <-]. exists rates. simpl. apply dict_get_set_eq.
Qed.

(** *** Rows that lack a field *)

Lemma of_str_raises (s : string) (e : exn) :
  decimal.of_str s = Raise e -> e = InvalidOperation.
Proof.
  unfold decimal.of_str.
  destruct (decimal.take_sign _) as [sign body].
  destruct (decimal.parse_number body) as [[c x]|]; [done|].
  destruct (decimal.parse_special sign body); [done|]. congruence.
Qed.

Lemma add_rates_raises (rows : list Element)
    (rates : dict (option string) Decimal) (e : exn) :
  add_rates rates rows = Raise e -> e = InvalidOperation.
Proof.
  revert rates. induction rows as [|row rows IH]; intros rates; [done|].
  simpl. unfold add_rate.
  destruct (decimal.of_str _) as [rate|e'] eqn:E; simpl.
  - apply IH.
  - intros [= <-]. by apply of_str_raises in E.
Qed.

Lemma add_rates_keys (rows : list Element)
    (rates rates' : dict (option string) Decimal) :
  add_rates rates rows = Ok rates' ->
  dict_get None rates = None -> dict_get None rates' = None.
Proof.
  revert rates. induction rows as [|row rows IH]; intros rates; simpl.
  - by intros [= <-].
  - unfold add_rate. destruct (decimal.of_str _) as [rate|e]; simpl; [|done].
    intros Hrest Hnone. apply (IH _ Hrest).
    by rewrite dict_get_set_ne.
Qed.

Lemma no_Decimal_is_None (l : list Decimal) : existsb Decimal_is_None l = false.
Proof. induction l; simpl; auto. Qed.

(** The test for [None] after the rows are read never fires: a missing
    field has become the string "None" before. *)
Lemma query_never_invalid_data (st : State) (d : date) (file : string) :
  fst (_query_hmrc_api st d) <> Raise (ParsingError file InvalidData).
Proof.
  unfold _query_hmrc_api.
  destruct (resource_for d) as [[month_str url]|e] eqn:Hurl.
  - destruct (remote _ url) as [err|r]; [done|].
    destruct (negb (ok r)); [done|].
    destruct (let* tree := fromstring r in add_rates [] (children_of tree))
      as [rates|e] eqn:Hrates.
    + unfold dict_mem.
      assert (dict_get None rates = None) as ->.
      { unfold fromstring in Hrates. destruct (tree r); [|done]. simpl in Hrates.
        by apply (add_rates_keys _ _ _ Hrates). }
      by rewrite no_Decimal_is_None.
    + unfold fromstring in Hrates. destruct (tree r); simpl in *.
      * apply add_rates_raises in Hrates as ->. done.
      * by injection Hrates as <-.
  - unfold resource_for in Hurl. destruct (_ <? _); [|done].
    destruct (dict_get _ crawl_slugs); simpl in *; [done|].
    by injection Hurl as <-.
Qed.

(** A row whose rate is missing or is no decimal stops the fetch with
    [InvalidOperation]; the table and the files stay as they were. *)
Lemma add_rates_bad_rate (rows : list Element)
    (rates : dict (option string) Decimal) :
  Exists (fun row => exists e, decimal.of_str (text_str (find "rateNew" row))
                               = Raise e) rows ->
  add_rates rates rows = Raise InvalidOperation.
Proof.
  intros Hbad. revert rates.
  induction Hbad as [row rows [e Hrow]|row rows _ IH]; intros rates; simpl.
  - unfold add_rate. rewrite Hrow. simpl. by apply of_str_raises in Hrow as ->.
  - unfold add_rate.
    destruct (decimal.of_str _) as [rate|e] eqn:E; simpl; [apply IH|].
    by apply of_str_raises in E as ->.
Qed.

Lemma query_bad_rate (st : State) (d : date) (month_str url : string)
    (r : Response) (root : Element) :
  resource_for d = Ok (month_str, url) ->
  remote (world st) url = Responded r ->
  ok r = true ->
  tree r = Some root ->
  Exists (fun row => exists e, decimal.of_str (text_str (find "rateNew" row))
                               = Raise e) (children_of root) ->
  _query_hmrc_api st d =
    (Raise InvalidOperation,
     {| self := self st; world := send url (world st) |}).
Proof.
  intros Hurl Hresp Hok Htree Hbad. unfold _query_hmrc_api.
  rewrite Hurl. simpl. rewrite Hresp, Hok. simpl.
  unfold fromstring. rewrite Htree. simpl.
  by rewrite (add_rates_bad_rate _ _ Hbad).
Qed.

(** C2, at inputs where the code departs from it: a response in which a
    row has no currency code is accepted, the rate filed under the code
    NONE in the table and in the file; a response in which a row has no
    rate stops the fetch with [InvalidOperation], which is no
    [ParsingError]. *)
Theorem row_without_code_is_accepted :
  let conv := {| exchange_rates_file := Some "rates.csv"; cache := [] |} in
  let st := {| self := conv; world := serving month_without_code |} in
  let st' := {| self := conv; world := serving month_without_rate |} in
  (fst (_query_hmrc_api st january) = Ok tt /\
   cache (self (snd (_query_hmrc_api st january)))
     = [(january, [(Some "USD", decimal.Finite false 13 (-1));
                   (Some "NONE", decimal.Finite false 15 (-1))])] /\
   fs (world (snd (_query_hmrc_api st january))) !! "rates.csv"
     = Some [EXCHANGE_RATES_HEADER;
             ["2021-01-01"; "USD"; "1.3"]; ["2021-01-01"; "NONE"; "1.5"]]) /\
  fst (_query_hmrc_api st' january) = Raise InvalidOperation.
Proof. cbv zeta. repeat split; vm_compute; reflexivity. Qed.

(** ** Reading the rates file *)

Lemma read_existing (fs : gmap string csv_file) (path : string)
    (fin : csv_file) :
  fs !! path = Some fin ->
  _read_exchange_rates_file fs (Some path) =
    let* skipped := next (DictReader fin) in
    read_lines path [] (snd skipped).
Proof. intros Hfile. unfold _read_exchange_rates_file. by rewrite Hfile. Qed.

(** What the reader makes of a file with a header and a first row that is
    not blank: the rows after that one, and nothing of the row itself. *)
Lemma read_skips_first_row (fs : gmap string csv_file) (path : string)
    (header : list string) (field : string) (fields : list string)
    (rows : list (list string)) :
  fs !! path = Some (header :: (field :: fields) :: rows) ->
  _read_exchange_rates_file fs (Some path) =
    read_lines path []
      (map (dict_row header) (List.filter (fun r => negb (is_blank r)) rows)).
Proof. intros Hfile. by rewrite (read_existing _ _ _ Hfile). Qed.

(** C10: a file that holds the header and nothing else does not load as
    an empty table: the reader stops with [StopIteration], and so does the
    construction of a converter over it.  With rows after the header, the
    first of them is passed over, whatever it holds: the table is the one
    of the rows after it. *)
Theorem header_only_file_stops :
  (forall (fs : gmap string csv_file) (path : string) (header : list string),
      _read_exchange_rates_file (<[path := [header]]> fs) (Some path)
        = Raise StopIteration) /\
  (forall (w : World) (path : string) (header : list string)
          (initial_data : option RateTable),
      __init__ (put_file path [header] w) (Some path) initial_data
        = Raise StopIteration) /\
  (forall (fs : gmap string csv_file) (path : string) (header : list string)
          (field : string) (fields : list string) (rows : list (list string)),
      _read_exchange_rates_file
        (<[path := header :: (field :: fields) :: rows]> fs) (Some path)
      = read_lines path []
          (map (dict_row header) (List.filter (fun r => negb (is_blank r)) rows))).
Proof.
  split; [|split].
  - intros fs path header.
    by rewrite (read_existing _ _ [header]) by apply lookup_insert_eq.
  - intros w path header initial_data. unfold __init__, put_file.
    cbn [fs].
    by rewrite (read_existing _ _ [header]) by apply lookup_insert_eq.
  - intros fs path header field fields rows.
    by rewrite (read_existing _ _ (header :: (field :: fields) :: rows))
      by apply lookup_insert_eq.
Qed.

(** An empty file stops the reader too; no file, or no path, is an empty
    table. *)
Lemma read_empty_file (fs : gmap string csv_file) (path : string) :
  _read_exchange_rates_file (<[path := []]> fs) (Some path)
    = Raise StopIteration.
Proof. by rewrite (read_existing _ _ []) by apply lookup_insert_eq. Qed.

Lemma read_no_file (fs : gmap string csv_file) (path : string) :
  fs !! path = None -> _read_exchange_rates_file fs (Some path) = Ok [].
Proof. intros Hnone. unfold _read_exchange_rates_file. by rewrite Hnone. Qed.

(** *** The check of the columns *)

Lemma no_None_in_strings (ks : list string) :
  existsb is_None (map Some ks) = false.
Proof. induction ks; simpl; auto. Qed.

Lemma omap_id_Some (ks : list string) : omap id (map Some ks) = ks.
Proof.
  induction ks as [|k ks IH]; [done|].
  change (k :: omap id (map Some ks) = k :: ks). by rewrite IH.
Qed.

Lemma map_Some_inj (l1 l2 : list string) :
  map Some l1 = map Some l2 -> l1 = l2.
Proof.
  revert l2. induction l1 as [|x l1 IH]; intros [|y l2]; simpl; try done.
  intros [= -> Hrest]. f_equal. by apply IH.
Qed.

Lemma sorted_strings (ks : list string) :
  sorted (map Some ks) = Ok (map Some (sort_strings ks)).
Proof.
  unfold sorted. by rewrite no_None_in_strings, omap_id_Some.
Qed.

(** A row the loop reaches whose keys are strings, but not those of the
    header, is refused with the path and the keys. *)
Lemma read_line_invalid_columns (path : string) (cache : RateTable)
    (line : csv_row) :
  rest line = None ->
  sort_strings (dict_keys (fields line)) <> sort_strings EXCHANGE_RATES_HEADER ->
  read_line path cache line =
    Raise (ParsingError path
             (InvalidColumns (keys line) EXCHANGE_RATES_HEADER)).
Proof.
  intros Hrest Hkeys. unfold read_line, keys. rewrite Hrest, app_nil_r.
  rewrite !sorted_strings. cbn [rbind].
  rewrite bool_decide_false; [done|].
  intros Heq. apply Hkeys. symmetry. by apply map_Some_inj.
Qed.


(** C3, at an input where the code departs from it: under the header
    [month,currency,rat] the only data row has the keys month, currency
    and rat, not those expected, yet the file loads without a
    [ParsingError], as an empty table. *)
Theorem misnamed_column_in_first_row_loads (fs : gmap string csv_file)
    (path : string) :
  let header := ["month"; "currency"; "rat"] in
  let row := ["2020-01-01"; "USD"; "1.3"] in
  keys (dict_row header row) = [Some "month"; Some "currency"; Some "rat"] /\
  _read_exchange_rates_file (<[path := [header; row]]> fs) (Some path) = Ok [].
Proof.
  split; [reflexivity|].
  by rewrite (read_existing _ _ [["month"; "currency"; "rat"];
                                 ["2020-01-01"; "USD"; "1.3"]])
    by apply lookup_insert_eq.
Qed.

(** The same row in second place is refused, with the path and its keys. *)
Lemma misnamed_column_in_second_row_raises (fs : gmap string csv_file)
    (path : string) :
  let header := ["month"; "currency"; "rat"] in
  let row := ["2020-01-01"; "USD"; "1.3"] in
  _read_exchange_rates_file (<[path := [header; row; row]]> fs) (Some path)
    = Raise (ParsingError path
               (InvalidColumns [Some "month"; Some "currency"; Some "rat"]
                               EXCHANGE_RATES_HEADER)).
Proof.
  cbv zeta.
  by rewrite (read_existing _ _ [["month"; "currency"; "rat"];
                                 ["2020-01-01"; "USD"; "1.3"];
                                 ["2020-01-01"; "USD"; "1.3"]])
    by apply lookup_insert_eq.
Qed.

(** A row with a value too many has the key [None] next to the three of
    the header; sorting its keys is a [TypeError], not a [ParsingError]. *)
Lemma long_row_is_type_error (fs : gmap string csv_file) (path : string) :
  let row := ["2020-01-01"; "USD"; "1.3"] in
  _read_exchange_rates_file
    (<[path := [EXCHANGE_RATES_HEADER; row; (row ++ ["extra"])%list]]> fs)
    (Some path)
    = Raise TypeError.
Proof.
  cbv zeta.
  by rewrite (read_existing _ _ [EXCHANGE_RATES_HEADER;
                                 ["2020-01-01"; "USD"; "1.3"];
                                 ["2020-01-01"; "USD"; "1.3"; "extra"]])
    by apply lookup_insert_eq.
Qed.

(** ** Writing the rates file and reading it back *)

Lemma data_rows_not_blank (data : RateTable) :
  List.filter (fun r => negb (is_blank r)) (data_rows data) = data_rows data.
Proof.
  unfold data_rows.
  induction data as [|[month rates] data IH]; [done|].
  cbn [flat_map]. rewrite List.filter_app, IH. f_equal.
  clear IH. unfold month_rows.
  induction rates as [|[symbol rate] rates IH]; [done|].
  cbn [map List.filter is_blank negb]. by rewrite IH.
Qed.

(** What comes back of a table that was written: the table of the rows
    written, without the first of them. *)
Lemma read_after_write (fs : gmap string csv_file) (path : string)
    (data : RateTable) :
  _read_exchange_rates_file
    (_write_exchange_rates_file fs (Some path) data) (Some path) =
  match data_rows data with
  | [] => Raise StopIteration
  | _ :: rows => read_lines path [] (map (dict_row EXCHANGE_RATES_HEADER) rows)
  end.
Proof.
  unfold _write_exchange_rates_file.
  rewrite (read_existing _ _ (EXCHANGE_RATES_HEADER :: data_rows data))
    by apply lookup_insert_eq.
  unfold DictReader. rewrite data_rows_not_blank.
  by destruct (data_rows data).
Qed.

(** *** The rows of a table, read by the loop *)

Lemma dict_row_written (a b c : string) :
  dict_row EXCHANGE_RATES_HEADER [a; b; c]
  = CsvRow [("month", Some a); ("currency", Some b); ("rate", Some c)] None.
Proof. reflexivity. Qed.

Lemma read_line_well_formed (path : string) (cache : RateTable)
    (a b c : string) :
  read_line path cache
    (CsvRow [("month", Some a); ("currency", Some b); ("rate", Some c)] None)
  = let* date := fromisoformat a in
    let* rate := decimal.of_str c in
    Ok (dict_set date
          (dict_set (Some b) rate (default [] (dict_get date cache))) cache).
Proof. reflexivity. Qed.

Lemma read_lines_app (path : string) (cache : RateTable)
    (l1 l2 : list csv_row) :
  read_lines path cache (l1 ++ l2) =
  let* cache' := read_lines path cache l1 in read_lines path cache' l2.
Proof.
  revert cache. induction l1 as [|line l1 IH]; intros cache; [done|].
  simpl. destruct (read_line path cache line); simpl; [apply IH|done].
Qed.

Lemma read_month_rows (path : string) (acc : RateTable) (m : date)
    (cur rest : dict (option string) Decimal) :
  valid_date m = true ->
  m ∉ dict_keys acc ->
  NoDup (dict_keys (cur ++ rest)) ->
  Forall storable_rate rest ->
  read_lines path (acc ++ [(m, cur)])
    (map (dict_row EXCHANGE_RATES_HEADER) (month_rows m rest))
  = Ok (acc ++ [(m, cur ++ rest)]).
Proof.
  intros Hm Hfresh. revert cur.
  induction rest as [|[symbol rate] rest IH]; intros cur Hdup Hrates.
  - by rewrite app_nil_r.
  - apply Forall_cons in Hrates as [[[s Hs] Hrate] Hrates].
    simpl in Hs, Hrate. subst symbol.
    cbn [month_rows map]. rewrite dict_row_written.
    cbn [read_lines]. rewrite read_line_well_formed.
    rewrite fromisoformat_isoformat by done. cbn [rbind csv_str default].
    rewrite Hrate. cbn [rbind].
    rewrite dict_get_app_fresh by done. simpl dict_get.
    rewrite decide_True by done. cbn [default].
    rewrite dict_set_app_fresh by done. simpl dict_set.
    rewrite decide_True by done.
    assert (Some s ∉ dict_keys cur) as Hnew.
    { unfold dict_keys in *. rewrite map_app in Hdup.
      apply NoDup_app in Hdup as (_ & Hdisj & _).
      intros Hin. apply (Hdisj _ Hin). simpl. left. }
    rewrite (dict_set_fresh cur) by done.
    fold (month_rows m rest). rewrite IH.
    + by rewrite <- app_assoc.
    + by rewrite <- app_assoc.
    + done.
Qed.

Lemma read_month (path : string) (acc : RateTable) (m : date)
    (rates : dict (option string) Decimal) :
  storable_month (m, rates) ->
  m ∉ dict_keys acc ->
  read_lines path acc
    (map (dict_row EXCHANGE_RATES_HEADER) (month_rows m rates))
  = Ok (acc ++ [(m, rates)]).
Proof.
  intros (Hm & Hne & Hdup & Hrates) Hfresh. simpl in *.
  destruct rates as [|[symbol rate] rest]; [done|].
  apply Forall_cons in Hrates as [[[s Hs] Hrate] Hrates].
  simpl in Hs, Hrate. subst symbol.
  cbn [month_rows map]. rewrite dict_row_written.
  cbn [read_lines]. rewrite read_line_well_formed.
  rewrite fromisoformat_isoformat by done. cbn [rbind csv_str default].
  rewrite Hrate. cbn [rbind].
  rewrite dict_get_fresh by done. cbn [default].
  rewrite dict_set_fresh by done.
  fold (month_rows m rest).
  change (dict_set (Some (id s)) rate []) with [(Some s, rate)].
  by rewrite (read_month_rows path acc m [(Some s, rate)] rest).
Qed.

Lemma read_lines_written_from (path : string) (acc data : RateTable) :
  storable data ->
  (forall m, m ∈ dict_keys data -> m ∉ dict_keys acc) ->
  read_lines path acc (map (dict_row EXCHANGE_RATES_HEADER) (data_rows data))
  = Ok (acc ++ data).
Proof.
  revert acc.
  induction data as [|[m rates] data IH]; intros acc [Hdup Hall] Hfresh.
  - by rewrite app_nil_r.
  - apply Forall_cons in Hall as [Hmonth Hall].
    simpl in Hdup. apply NoDup_cons in Hdup as [Hm Hdup].
    change (data_rows ((m, rates) :: data))
      with (month_rows m rates ++ data_rows data).
    rewrite map_app, read_lines_app.
    rewrite read_month; [|done|apply Hfresh; simpl; left].
    cbn [rbind]. rewrite IH.
    + by rewrite <- app_assoc.
    + done.
    + intros m' Hin. unfold dict_keys. rewrite map_app.
      apply not_elem_of_app. split.
      * apply Hfresh. simpl. by right.
      * simpl. apply not_elem_of_cons. split; [|apply not_elem_of_nil].
        intros ->. done.
Qed.

(** The loop of the reader, run over all the rows the writer puts after
    the header, rebuilds the table. *)
Lemma read_lines_written (path : string) (data : RateTable) :
  storable data ->
  read_lines path [] (map (dict_row EXCHANGE_RATES_HEADER) (data_rows data))
  = Ok data.
Proof.
  intros Hdata. rewrite (read_lines_written_from path [] data Hdata); [done|].
  intros m _. apply not_elem_of_nil.
Qed.



(** C1, at inputs where the code departs from it: a table with one rate
    is written as the header and one row, and loads as the empty table;
    of a table with two months only the second comes back; the empty table
    does not load at all. *)
Theorem written_table_loses_first_row (fs : gmap string csv_file)
    (path : string) :
  let usd := decimal.Finite false 13 (-1) in
  let eur := decimal.Finite false 11 (-1) in
  let one := [(Date 2020 1 1, [(Some "USD", usd)])] in
  let two := [(Date 2020 1 1, [(Some "USD", usd)]);
              (Date 2020 2 1, [(Some "EUR", eur)])] in
  _write_exchange_rates_file fs (Some path) one !! path
    = Some [EXCHANGE_RATES_HEADER; ["2020-01-01"; "USD"; "1.3"]] /\
  _read_exchange_rates_file
    (_write_exchange_rates_file fs (Some path) one) (Some path) = Ok [] /\
  _read_exchange_rates_file
    (_write_exchange_rates_file fs (Some path) two) (Some path)
    = Ok [(Date 2020 2 1, [(Some "EUR", eur)])] /\
  _read_exchange_rates_file
    (_write_exchange_rates_file fs (Some path) []) (Some path)
    = Raise StopIteration.
Proof.
  cbv zeta. repeat split.
  - unfold _write_exchange_rates_file. by rewrite lookup_insert_eq.
  - by rewrite read_after_write.
  - rewrite read_after_write. vm_compute. reflexivity.
  - by rewrite read_after_write.
Qed.

(** * Further properties *)

(** ** The constructor *)

Section MergeFacts.
Context {K V : Type} `{EqDecision K}.
Implicit Types (a b : dict K V) (k : K).

Lemma dict_merge_get a b k :
  NoDup (dict_keys b) ->
  dict_get k (dict_merge a b) =
    match dict_get k b with
    | Some v => Some v
    | None => dict_get k a
    end.
Proof.
  revert a. induction b as [|[k' v'] b IH]; intros a Hdup; [done|].
  simpl in Hdup. apply NoDup_cons in Hdup as [Hfresh Hdup].
  change (dict_merge a ((k', v') :: b)) with (dict_merge (dict_set k' v' a) b).
  rewrite IH by done. simpl.
  destruct (decide (k = k')) as [->|Hne].
  - rewrite (dict_get_fresh b k') by done. apply dict_get_set_eq.
  - destruct (dict_get k b); [done|]. by apply dict_get_set_ne.
Qed.

Lemma dict_merge_nil b : NoDup (dict_keys b) -> dict_merge [] b = b.
Proof.
  intros Hdup.
  assert (forall a, (forall k, k ∈ dict_keys b -> k ∉ dict_keys a) ->
                    dict_merge a b = a ++ b) as Hgen.
  { clear -Hdup. induction b as [|[k v] b IH]; intros a Hfresh.
    - by rewrite app_nil_r.
    - simpl in Hdup. apply NoDup_cons in Hdup as [Hk Hdup].
      change (dict_merge a ((k, v) :: b)) with (dict_merge (dict_set k v a) b).
      rewrite dict_set_fresh by (apply Hfresh; simpl; left).
      rewrite IH; [by rewrite <- app_assoc|done|].
      intros k' Hin. unfold dict_keys. rewrite map_app.
      apply not_elem_of_app. split.
      + apply Hfresh. simpl. by right.
      + simpl. apply not_elem_of_cons. split; [|apply not_elem_of_nil].
        by intros ->. }
  apply (Hgen []). intros k _. apply not_elem_of_nil.
Qed.

End MergeFacts.

(** X1: the constructor merges the table of the file with the seed data, the
    seed first: for every date the table has the mapping of the seed where
    the seed has the date, as a whole, and that of the file otherwise. *)
Theorem init_seed_overrides_file (w : World) (path : option string)
    (read_data seeds : RateTable) :
  _read_exchange_rates_file (fs w) path = Ok read_data ->
  NoDup (dict_keys seeds) ->
  exists conv,
    __init__ w path (Some seeds) = Ok conv /\
    exchange_rates_file conv = path /\
    forall d, dict_get d (cache conv) =
              match dict_get d seeds with
              | Some rates => Some rates
              | None => dict_get d read_data
              end.
Proof.
  intros Hread Hdup. unfold __init__. rewrite Hread. cbn [rbind default].
  eexists. split; [reflexivity|]. split; [reflexivity|].
  intros d. cbn [cache]. by apply dict_merge_get.
Qed.

Lemma init_seed_overrides_file_witness :
  exists conv,
    __init__ (put_file "rates.csv"
                [EXCHANGE_RATES_HEADER; ["2020-01-01"; "USD"; "1.3"];
                 ["2021-01-01"; "USD"; "1.5"]; ["2020-02-01"; "EUR"; "1.1"]]
                offline)
             (Some "rates.csv") (Some [(january, january_rates)]) = Ok conv /\
    exchange_rates_file conv = Some "rates.csv" /\
    forall d, dict_get d (cache conv) =
              match dict_get d [(january, january_rates)] with
              | Some rates => Some rates
              | None => dict_get d
                          [(january, [(Some "USD", decimal.Finite false 15 (-1))]);
                           (Date 2020 2 1,
                            [(Some "EUR", decimal.Finite false 11 (-1))])]
              end.
Proof.
  apply (init_seed_overrides_file _ (Some "rates.csv")).
  - vm_compute. reflexivity.
  - apply NoDup_singleton.
Defined.

(** X2: without a path, or with the path of a file that does not exist, the
    constructor raises nothing, and the table is the seed data, or empty
    where there is none. *)
Theorem init_without_file (w : World) (path : option string)
    (initial_data : option RateTable) :
  path = None \/ (exists p, path = Some p /\ fs w !! p = None) ->
  exists conv,
    __init__ w path initial_data = Ok conv /\
    exchange_rates_file conv = path /\
    (forall seeds, initial_data = Some seeds -> NoDup (dict_keys seeds) ->
                   cache conv = seeds) /\
    (initial_data = None -> cache conv = []).
Proof.
  intros Hnone. unfold __init__.
  assert (_read_exchange_rates_file (fs w) path = Ok []) as ->.
  { destruct Hnone as [->|(p & -> & Hp)]; [done|by apply read_no_file]. }
  cbn [rbind]. eexists. split; [reflexivity|]. split; [reflexivity|]. split.
  - intros seeds -> Hdup. cbn [cache default]. by apply dict_merge_nil.
  - by intros ->.
Qed.

Lemma init_without_file_witness :
  exists conv,
    __init__ offline (Some "rates.csv") (Some [(january, january_rates)])
      = Ok conv /\
    exchange_rates_file conv = Some "rates.csv" /\
    (forall seeds, Some [(january, january_rates)] = Some seeds ->
                   NoDup (dict_keys seeds) -> cache conv = seeds) /\
    (Some [(january, january_rates)] = None -> cache conv = []).
Proof.
  apply (init_without_file offline (Some "rates.csv")).
  right. exists "rates.csv". split; reflexivity.
Defined.

(** ** More on fetching *)

(** What a fetch that succeeds went through. *)
Lemma query_success_inv (st st' : State) (d : date) :
  _query_hmrc_api st d = (Ok tt, st') ->
  exists month_str url r root rates,
    resource_for d = Ok (month_str, url) /\
    remote (world st) url = Responded r /\
    ok r = true /\
    tree r = Some root /\
    add_rates [] (children_of root) = Ok rates /\
    st' = {| self := {| exchange_rates_file := exchange_rates_file (self st);
                        cache := dict_set d rates (cache (self st)) |};
             world := {| fs := _write_exchange_rates_file (fs (world st))
                                 (exchange_rates_file (self st))
                                 (dict_set d rates (cache (self st)));
                         remote := remote (world st);
                         requests := requests (world st) ++ [url];
                         stdout := stdout (world st) |} |}.
Proof.
  unfold _query_hmrc_api.
  destruct (resource_for d) as [[month_str url]|e]; [|done].
  cbn [send remote].
  destruct (remote (world st) url) as [err|r] eqn:Hresp; [done|].
  destruct (ok r) eqn:Hok; [|done]. cbn [negb].
  unfold fromstring. destruct (tree r) as [root|] eqn:Htree; [|done].
  cbn [rbind].
  destruct (add_rates [] (children_of root)) as [rates|e] eqn:Hrates; [|done].
  destruct (_ || _); [done|].
  intros [= <-]. by exists month_str, url, r, root, rates.
Qed.

(** X3: a fetch that succeeds stores a mapping under its date and leaves the
    other dates of the table alone; it sends one request, to the url of the
    date, and writes the header and the rows of the whole new table to the
    converter's file, and to no other. *)
Theorem fetch_success_effect (st st' : State) (d : date) :
  _query_hmrc_api st d = (Ok tt, st') ->
  exists month_str url rates,
    resource_for d = Ok (month_str, url) /\
    dict_get d (cache (self st')) = Some rates /\
    (forall d', d' <> d ->
       dict_get d' (cache (self st')) = dict_get d' (cache (self st))) /\
    exchange_rates_file (self st') = exchange_rates_file (self st) /\
    requests (world st') = requests (world st) ++ [url] /\
    stdout (world st') = stdout (world st) /\
    (forall path,
       exchange_rates_file (self st) = Some path ->
       fs (world st') !! path
         = Some (EXCHANGE_RATES_HEADER :: data_rows (cache (self st'))) /\
       forall other, other <> path ->
         fs (world st') !! other = fs (world st) !! other) /\
    (exchange_rates_file (self st) = None -> fs (world st') = fs (world st)).
Proof.
  intros Hq.
  destruct (query_success_inv _ _ _ Hq)
    as (month_str & url & r & root & rates & Hurl & _ & _ & _ & _ & ->).
  exists month_str, url, rates. cbn [self world cache fs requests stdout
                                     exchange_rates_file].
  split; [done|]. split; [apply dict_get_set_eq|].
  split; [intros d' Hne; by apply dict_get_set_ne|].
  split; [done|]. split; [done|]. split; [done|]. split.
  - intros path ->. cbn [_write_exchange_rates_file]. split.
    + apply lookup_insert_eq.
    + intros other Hne. by apply lookup_insert_ne.
  - by intros ->.
Qed.


(** The exceptions of a fetch. *)
Lemma query_raises (st : State) (d : date) (e : exn) :
  fst (_query_hmrc_api st d) = Raise e ->
  e = KeyError (inl (year d)) \/
  (exists url message, e = ParsingError url message) \/
  e = XMLParseError \/ e = InvalidOperation.
Proof.
  unfold _query_hmrc_api.
  destruct (resource_for d) as [[month_str url]|e0] eqn:Hurl.
  - destruct (remote _ url) as [err|r].
    { intros [= <-]. right. left. by eexists _, _. }
    destruct (negb (ok r)).
    { intros [= <-]. right. left. by eexists _, _. }
    destruct (let* tree := fromstring r in add_rates [] (children_of tree))
      as [rates|e1] eqn:Hrates.
    + destruct (_ || _); [|done].
      intros [= <-]. right. left. by eexists _, _.
    + intros [= <-]. unfold fromstring in Hrates.
      destruct (tree r); simpl in Hrates.
      * apply add_rates_raises in Hrates as ->. by repeat right.
      * injection Hrates as <-. right. right. by left.
  - intros [= <-]. left. unfold resource_for in Hurl.
    destruct (_ <? _); [|done].
    destruct (dict_get _ crawl_slugs); simpl in Hurl; [done|].
    by injection Hurl as <-.
Qed.

Lemma query_sends (st : State) (d : date) (month_str url : string) :
  resource_for d = Ok (month_str, url) ->
  requests (world (snd (_query_hmrc_api st d))) = requests (world st) ++ [url].
Proof.
  intros Hurl. unfold _query_hmrc_api. rewrite Hurl.
  destruct (remote _ url) as [err|r]; [done|].
  destruct (negb (ok r)); [done|].
  destruct (let* tree := fromstring r in add_rates [] (children_of tree));
    [|done].
  by destruct (_ || _).
Qed.

(** X5: for a date before 2015 no request is made: the fetch raises the
    [KeyError] of the table of crawl slugs and leaves the state as it is; a
    rate lookup or a conversion that has to fetch such a date raises it too,
    having printed its line. *)
Theorem fetch_before_2015 (st : State) (d : date) :
  year d < 2015 ->
  _query_hmrc_api st d = (Raise (KeyError (inl (year d))), st) /\
  (dict_get d (cache (self st)) = None ->
   (forall currency,
      currency_to_gbp_rate st currency d
        = (Raise (KeyError (inl (year d))), announce st d)) /\
   (forall amount currency,
      currency <> "GBP" ->
      to_gbp st amount currency d
        = (Raise (KeyError (inl (year d))), announce st d))).
Proof.
  intros Hy.
  assert (forall st0, _query_hmrc_api st0 d
                      = (Raise (KeyError (inl (year d))), st0)) as Hquery.
  { intros st0. unfold _query_hmrc_api.
    by rewrite (resource_for_before_2015 d Hy). }
  split; [apply Hquery|]. intros Hmiss.
  assert (forall currency,
            currency_to_gbp_rate st currency d
            = (Raise (KeyError (inl (year d))), announce st d)) as Hrate.
  { intros currency. apply (rate_fetch_raises _ _ _ _ _ Hmiss), Hquery. }
  split; [done|]. intros amount currency Hgbp. unfold to_gbp.
  destruct (String.eqb_spec currency "GBP") as [?|_]; [done|].
  by rewrite Hrate.
Qed.

Lemma fetch_before_2015_witness :
  let st := {| self := converter []; world := offline |} in
  _query_hmrc_api st (Date 2014 5 1) = (Raise (KeyError (inl 2014)), st) /\
  (dict_get (Date 2014 5 1) (cache (self st)) = None ->
   (forall currency,
      currency_to_gbp_rate st currency (Date 2014 5 1)
        = (Raise (KeyError (inl 2014)), announce st (Date 2014 5 1))) /\
   (forall amount currency,
      currency <> "GBP" ->
      to_gbp st amount currency (Date 2014 5 1)
        = (Raise (KeyError (inl 2014)), announce st (Date 2014 5 1)))).
Proof.
  apply (fetch_before_2015 {| self := converter []; world := offline |}
           (Date 2014 5 1)).
  simpl. lia.
Defined.

(** X6: once a lookup has returned a rate, or found the currency missing,
    the month of its date is in the table, and every later lookup for that
    date is answered from the table: the state does not change any more, so
    nothing is requested, printed or written. *)
Theorem lookup_caches_month (st st' : State) (currency : string) (d : date)
    (res : result Decimal) :
  currency_to_gbp_rate st currency d = (res, st') ->
  (forall e, res = Raise e -> e = ExchangeRateMissingError currency d) ->
  exists rates,
    dict_get d (cache (self st')) = Some rates /\
    forall other,
      currency_to_gbp_rate st' other d =
        (match dict_get (Some other) rates with
         | Some rate => Ok rate
         | None => Raise (ExchangeRateMissingError other d)
         end, st').
Proof.
  intros Hcall Hres.
  assert (exists rates, month_resolves st d st' rates) as [rates Hresolves].
  { destruct (dict_get d (cache (self st))) as [rates|] eqn:Hcache.
    - exists rates. left. split; [done|].
      rewrite (rate_when_resolved st st currency d rates) in Hcall
        by (by left).
      by injection Hcall as _ <-.
    - destruct (_query_hmrc_api (announce st d) d) as [[[]|e] st1] eqn:Hq.
      + destruct (query_success_cached _ _ _ Hq) as [rates Hrates].
        exists rates.
        assert (month_resolves st d st1 rates) as Hst1 by (by right).
        rewrite (rate_when_resolved _ _ currency _ _ Hst1) in Hcall.
        injection Hcall as _ <-. done.
      + rewrite (rate_fetch_raises _ _ currency _ _ Hcache Hq) in Hcall.
        injection Hcall as <- <-.
        specialize (Hres e eq_refl). subst e.
        pose proof (query_raises (announce st d) d _
                      ltac:(by rewrite Hq)) as Hkind.
        destruct Hkind as [?|[(? & ? & ?)|[?|?]]]; done. }
  exists rates. split.
  - by destruct Hresolves as [[? ->]|(_ & _ & ?)].
  - intros other.
    apply rate_when_resolved, (resolved_stays _ _ _ _ Hresolves).
Qed.

Lemma lookup_caches_month_witness :
  exists rates,
    dict_get january (cache (self after_fetch)) = Some rates /\
    forall other,
      currency_to_gbp_rate after_fetch other january =
        (match dict_get (Some other) rates with
         | Some rate => Ok rate
         | None => Raise (ExchangeRateMissingError other january)
         end, after_fetch).
Proof.
  apply (lookup_caches_month before_fetch after_fetch "USD" january
           (Ok (decimal.Finite false 13 (-1)))).
  - vm_compute. reflexivity.
  - intros e. discriminate.
Defined.

Lemma fetch_success_effect_witness :
  exists month_str url rates,
    resource_for january = Ok (month_str, url) /\
    dict_get january (cache (self after_fetch)) = Some rates /\
    (forall d', d' <> january ->
       dict_get d' (cache (self after_fetch))
       = dict_get d' (cache (self (announce before_fetch january)))) /\
    exchange_rates_file (self after_fetch)
      = exchange_rates_file (self (announce before_fetch january)) /\
    requests (world after_fetch)
      = requests (world (announce before_fetch january)) ++ [url] /\
    stdout (world after_fetch)
      = stdout (world (announce before_fetch january)) /\
    (forall path,
       exchange_rates_file (self (announce before_fetch january)) = Some path ->
       fs (world after_fetch) !! path
         = Some (EXCHANGE_RATES_HEADER :: data_rows (cache (self after_fetch))) /\
       forall other, other <> path ->
         fs (world after_fetch) !! other
         = fs (world (announce before_fetch january)) !! other) /\
    (exchange_rates_file (self (announce before_fetch january)) = None ->
     fs (world after_fetch) = fs (world (announce before_fetch january))).
Proof.
  apply (fetch_success_effect (announce before_fetch january) after_fetch
           january).
  vm_compute. reflexivity.
Defined.


(** ** Currency codes *)

Lemma upper_char_idempotent (c : ascii) :
  Str.upper_char (Str.upper_char c) = Str.upper_char c.
Proof. destruct c as [[] [] [] [] [] [] [] []]; reflexivity. Qed.

Lemma upper_idempotent (s : string) : Str.upper (Str.upper s) = Str.upper s.
Proof.
  induction s as [|c s IH]; [done|]. simpl.
  by rewrite upper_char_idempotent, IH.
Qed.

(** X7: the conversion takes the currency in any case: but for the literal
    "GBP", a code and its upper-case form convert alike.  The test for the
    reference currency is made before the code is put in upper case, so
    "gbp", which is not the literal, is looked up under GBP like any other
    currency. *)
Theorem to_gbp_ignores_case (st : State) (amount : Decimal)
    (currency : string) (d : date) :
  currency <> "GBP" ->
  (Str.upper currency <> "GBP" ->
   to_gbp st amount currency d = to_gbp st amount (Str.upper currency) d) /\
  (Str.upper currency = "GBP" ->
   forall st' rates,
     month_resolves st d st' rates ->
     to_gbp st amount currency d =
       (match dict_get (Some "GBP") rates with
        | Some rate => decimal.truediv amount rate
        | None => Raise (ExchangeRateMissingError "GBP" d)
        end, st')).
Proof.
  intros Hgbp. unfold to_gbp.
  destruct (String.eqb_spec currency "GBP") as [?|_]; [done|]. split.
  - intros Hupper.
    destruct (String.eqb_spec (Str.upper currency) "GBP") as [?|_]; [done|].
    by rewrite upper_idempotent.
  - intros -> st' rates Hres.
    rewrite (rate_when_resolved _ _ "GBP" _ _ Hres).
    by destruct (dict_get (Some "GBP") rates).
Qed.

Lemma to_gbp_ignores_case_witness :
  let ten := decimal.Finite false 10 0 in
  (Str.upper "gbp" <> "GBP" ->
   to_gbp before_fetch ten "gbp" january
   = to_gbp before_fetch ten (Str.upper "gbp") january) /\
  (Str.upper "gbp" = "GBP" ->
   forall st' rates,
     month_resolves before_fetch january st' rates ->
     to_gbp before_fetch ten "gbp" january =
       (match dict_get (Some "GBP") rates with
        | Some rate => decimal.truediv ten rate
        | None => Raise (ExchangeRateMissingError "GBP" january)
        end, st')).
Proof.
  apply (to_gbp_ignores_case before_fetch (decimal.Finite false 10 0) "gbp"
           january).
  discriminate.
Defined.

(** *** The codes a fetch stores *)

Section DictKeys.
Context {K V : Type} `{EqDecision K}.

Lemma dict_set_keys (P : K -> Prop) (d : dict K V) (k : K) (v : V) :
  P k -> Forall P (dict_keys d) -> Forall P (dict_keys (dict_set k v d)).
Proof.
  intros Hk. induction d as [|[k' v'] d IH]; simpl; intros Hd.
  - by apply Forall_cons.
  - apply Forall_cons in Hd as [Hk' Hd].
    destruct (decide (k = k')); simpl; apply Forall_cons; auto.
Qed.

End DictKeys.

Lemma add_rates_upper (rows : list Element)
    (rates rates' : dict (option string) Decimal) :
  add_rates rates rows = Ok rates' ->
  Forall upper_code (dict_keys rates) -> Forall upper_code (dict_keys rates').
Proof.
  revert rates. induction rows as [|row rows IH]; intros rates; simpl.
  - by intros [= <-].
  - unfold add_rate. destruct (decimal.of_str _) as [rate|e]; simpl; [|done].
    intros Hrest Hkeys. apply (IH _ Hrest). apply dict_set_keys; [|done].
    eexists. split; [done|]. apply upper_idempotent.
Qed.

(** X8: the codes of a month that was fetched are strings in upper case,
    whatever the case of the codes in the response. *)
Theorem fetched_codes_are_upper (st st' : State) (d : date) :
  _query_hmrc_api st d = (Ok tt, st') ->
  exists rates,
    dict_get d (cache (self st')) = Some rates /\
    Forall upper_code (dict_keys rates).
Proof.
  intros Hq.
  destruct (query_success_inv _ _ _ Hq)
    as (month_str & url & r & root & rates & _ & _ & _ & _ & Hrates & ->).
  exists rates. split; [apply dict_get_set_eq|].
  apply (add_rates_upper _ _ _ Hrates). constructor.
Qed.

Lemma fetched_codes_are_upper_witness :
  exists rates,
    dict_get january (cache (self after_fetch)) = Some rates /\
    Forall upper_code (dict_keys rates).
Proof.
  apply (fetched_codes_are_upper (announce before_fetch january) after_fetch).
  vm_compute. reflexivity.
Defined.

(** *** Rows with the same code *)

Lemma add_rates_app (rows1 rows2 : list Element)
    (rates : dict (option string) Decimal) :
  add_rates rates (rows1 ++ rows2) =
  let* rates' := add_rates rates rows1 in add_rates rates' rows2.
Proof.
  revert rates. induction rows1 as [|row rows1 IH]; intros rates; [done|].
  simpl. destruct (add_rate rates row); simpl; [apply IH|done].
Qed.

(** X9: of the rows of a response the last decides: the rate stored for its
    code is its own, whatever the rows before it say of that code. *)
Theorem last_row_decides (st st' : State) (d : date) (month_str url : string)
    (r : Response) (root : Element) (rows : list Element) (row : Element) :
  resource_for d = Ok (month_str, url) ->
  remote (world st) url = Responded r ->
  tree r = Some root ->
  children_of root = rows ++ [row] ->
  _query_hmrc_api st d = (Ok tt, st') ->
  exists rates rate,
    dict_get d (cache (self st')) = Some rates /\
    decimal.of_str (text_str (find "rateNew" row)) = Ok rate /\
    dict_get (Some (Str.upper (text_str (find "currencyCode" row)))) rates
      = Some rate.
Proof.
  intros Hurl Hresp Htree Hrows Hq.
  destruct (query_success_inv _ _ _ Hq)
    as (month_str' & url' & r' & root' & rates & Hurl' & Hresp' & _ & Htree'
        & Hrates & ->).
  rewrite Hurl in Hurl'. injection Hurl' as <- <-.
  rewrite Hresp in Hresp'. injection Hresp' as <-.
  rewrite Htree in Htree'. injection Htree' as <-.
  rewrite Hrows, add_rates_app in Hrates.
  destruct (add_rates [] rows) as [before|e]; [|done].
  cbn [rbind add_rates] in Hrates. unfold add_rate in Hrates.
  destruct (decimal.of_str _) as [rate|e] eqn:Hrate; [|done].
  cbn [rbind] in Hrates. injection Hrates as <-.
  exists (dict_set (Some (Str.upper (text_str (find "currencyCode" row))))
            rate before), rate.
  split; [apply dict_get_set_eq|]. split; [done|]. apply dict_get_set_eq.
Qed.

Lemma last_row_decides_witness :
  let st := {| self := converter []; world := serving month_with_repeat |} in
  exists rates rate,
    dict_get january (cache (self (snd (_query_hmrc_api st january))))
      = Some rates /\
    decimal.of_str (text_str (find "rateNew" (exchange_rate "usd" "1.4")))
      = Ok rate /\
    dict_get (Some (Str.upper (text_str (find "currencyCode"
                                           (exchange_rate "usd" "1.4")))))
             rates = Some rate.
Proof.
  apply (last_row_decides
           {| self := converter []; world := serving month_with_repeat |}
           _ january "2021-01" (current_url "2021-01")
           {| ok := true; status_code := 200; tree := Some month_with_repeat |}
           month_with_repeat
           [exchange_rate "USD" "1.3"; exchange_rate "EUR" "1.1"]
           (exchange_rate "usd" "1.4")); reflexivity.
Defined.

(** ** Division by a stored rate of zero *)

(** X10: a rate of zero in the table is not refused when it is stored; the
    conversion of an amount that is not zero then raises [DivisionByZero],
    and that of a zero amount [InvalidOperation]. *)
Theorem zero_rate_raises (st st' : State) (currency : string) (d : date)
    (rates : dict (option string) Decimal) (sign : bool) (exp : Z)
    (asign : bool) (acoeff : N) (aexp : Z) :
  currency <> "GBP" ->
  month_resolves st d st' rates ->
  dict_get (Some (Str.upper currency)) rates
    = Some (decimal.Finite sign 0 exp) ->
  to_gbp st (decimal.Finite asign acoeff aexp) currency d =
    (Raise (if (acoeff =? 0)%N then InvalidOperation else DivisionByZero), st').
Proof.
  intros Hgbp Hres Hrate. unfold to_gbp.
  destruct (String.eqb_spec currency "GBP") as [?|_]; [done|].
  by rewrite (rate_when_resolved _ _ _ _ _ Hres), Hrate.
Qed.

Lemma zero_rate_raises_witness :
  to_gbp zero_rate_state (decimal.Finite false 5 0) "usd" january =
    (Raise (if (5 =? 0)%N then InvalidOperation else DivisionByZero),
     zero_rate_state).
Proof.
  refine (zero_rate_raises zero_rate_state zero_rate_state "usd" january
            [(Some "USD", decimal.Finite false 0 0)] false 0 false 5 0
            _ _ _).
  - discriminate.
  - left. split; reflexivity.
  - reflexivity.
Defined.

(** ** The key of the table is the day *)

(** X11: the table is keyed by the date as given, the url by its month:
    after the fetch for one day, another day of the same month is not in the
    table unless it was before, and a lookup for it sends a request to the
    same url again. *)
Theorem other_day_fetches_again (st st' : State) (d d' : date)
    (currency : string) :
  _query_hmrc_api st d = (Ok tt, st') ->
  year d' = year d -> month d' = month d -> d' <> d ->
  dict_get d' (cache (self st)) = None ->
  dict_get d' (cache (self st')) = None /\
  resource_for d' = resource_for d /\
  exists url,
    requests (world st') = requests (world st) ++ [url] /\
    requests (world (snd (currency_to_gbp_rate st' currency d')))
      = requests (world st) ++ [url; url].
Proof.
  intros Hq Hy Hm Hne Hmiss.
  assert (resource_for d' = resource_for d) as Hsame.
  { unfold resource_for, strftime_my, strftime_Y_m. by rewrite Hy, Hm. }
  destruct (query_success_inv _ _ _ Hq)
    as (month_str & url & r & root & rates & Hurl & _ & _ & _ & _ & ->).
  cbn [self world cache requests].
  split; [by rewrite dict_get_set_ne|]. split; [done|].
  exists url. split; [done|].
  unfold currency_to_gbp_rate, dict_mem. cbn [is_date negb self cache].
  rewrite dict_get_set_ne by done. rewrite Hmiss. cbn [negb].
  rewrite <- Hsame in Hurl.
  pose proof (query_sends
    (announce {| self := {| exchange_rates_file := exchange_rates_file (self st);
                            cache := dict_set d rates (cache (self st)) |};
                 world := {| fs := _write_exchange_rates_file (fs (world st))
                                     (exchange_rates_file (self st))
                                     (dict_set d rates (cache (self st)));
                             remote := remote (world st);
                             requests := requests (world st) ++ [url];
                             stdout := stdout (world st) |} |} d')
    d' month_str url Hurl) as Hsent.
  destruct (_query_hmrc_api _ d') as [[[]|e] st2] eqn:Hq2;
    cbn [snd] in Hsent.
  - assert (requests (world st2) = requests (world st) ++ [url; url]) as Hreq.
    { rewrite Hsent. cbn. by rewrite <- app_assoc. }
    destruct (cache_at st2 d') as [rs|];
      [destruct (dict_get (Some currency) rs)|]; exact Hreq.
  - cbn. rewrite Hsent. cbn. by rewrite <- app_assoc.
Qed.

Lemma other_day_fetches_again_witness :
  let d' := Date 2021 1 15 in
  dict_get d' (cache (self after_fetch)) = None /\
  resource_for d' = resource_for january /\
  exists url,
    requests (world after_fetch)
      = requests (world (announce before_fetch january)) ++ [url] /\
    requests (world (snd (currency_to_gbp_rate after_fetch "USD" d')))
      = requests (world (announce before_fetch january)) ++ [url; url].
Proof.
  refine (other_day_fetches_again (announce before_fetch january) after_fetch
            january (Date 2021 1 15) "USD" _ _ _ _ _).
  - vm_compute. reflexivity.
  - reflexivity.
  - reflexivity.
  - discriminate.
  - reflexivity.
Defined.

(** ** A converter without a file *)

Lemma lookup_state_after_fetch (st : State) (currency : string) (d : date) :
  dict_get d (cache (self st)) = None ->
  snd (currency_to_gbp_rate st currency d)
    = snd (_query_hmrc_api (announce st d) d).
Proof.
  intros Hmiss. unfold currency_to_gbp_rate, dict_mem.
  cbn [is_date negb]. rewrite Hmiss. cbn [negb].
  destruct (_query_hmrc_api (announce st d) d) as [[[]|e] st1]; [|done].
  destruct (cache_at st1 d) as [rs|]; [|done].
  by destruct (dict_get (Some currency) rs).
Qed.

Lemma to_gbp_state (st : State) (amount : Decimal) (currency : string)
    (d : date) :
  currency <> "GBP" ->
  snd (to_gbp st amount currency d)
    = snd (currency_to_gbp_rate st (Str.upper currency) d).
Proof.
  intros Hgbp. unfold to_gbp.
  destruct (String.eqb_spec currency "GBP") as [?|_]; [done|].
  by destruct (currency_to_gbp_rate st (Str.upper currency) d).
Qed.

(** X12: a converter made without a path, or with the path of a file that
    does not exist, and without seeds starts from the empty table: its
    construction raises nothing, and the first conversion of any currency
    but GBP, for any date that has a url, sends the request for that date. *)
Theorem first_conversion_fetches (w : World) (path : option string) :
  path = None \/ (exists p, path = Some p /\ fs w !! p = None) ->
  exists conv,
    __init__ w path None = Ok conv /\
    cache conv = [] /\
    forall amount currency d month_str url,
      currency <> "GBP" ->
      resource_for d = Ok (month_str, url) ->
      requests (world (snd (to_gbp {| self := conv; world := w |}
                                   amount currency d)))
        = requests w ++ [url].
Proof.
  intros Hnone. unfold __init__.
  assert (_read_exchange_rates_file (fs w) path = Ok []) as ->.
  { destruct Hnone as [->|(p & -> & Hp)]; [done|by apply read_no_file]. }
  cbn [rbind]. eexists. split; [reflexivity|]. split; [reflexivity|].
  intros amount currency d month_str url Hgbp Hurl.
  rewrite to_gbp_state by done.
  rewrite lookup_state_after_fetch by done.
  by rewrite (query_sends _ _ _ _ Hurl).
Qed.

Lemma first_conversion_fetches_witness :
  exists conv,
    __init__ offline (Some "rates.csv") None = Ok conv /\
    cache conv = [] /\
    forall amount currency d month_str url,
      currency <> "GBP" ->
      resource_for d = Ok (month_str, url) ->
      requests (world (snd (to_gbp {| self := conv; world := offline |}
                                   amount currency d)))
        = requests offline ++ [url].
Proof.
  apply (first_conversion_fetches offline (Some "rates.csv")).
  right. exists "rates.csv". split; reflexivity.
Defined.

(** ** Rows the loop reads *)


(** What the reader makes of the second row of a file. *)
Lemma read_second_row (fs : gmap string csv_file) (path : string)
    (header : list string) (field : string) (fields row : list string)
    (rows : list (list string)) :
  is_blank row = false ->
  _read_exchange_rates_file
    (<[path := header :: (field :: fields) :: row :: rows]> fs) (Some path)
  = let* cache := read_line path [] (dict_row header row) in
    read_lines path cache
      (map (dict_row header) (List.filter (fun r => negb (is_blank r)) rows)).
Proof.
  intros Hblank.
  rewrite (read_skips_first_row _ path header field fields (row :: rows))
    by apply lookup_insert_eq.
  cbn [List.filter]. rewrite Hblank. reflexivity.
Qed.





(** X15: the columns of the file may come in any order: under each of the
    orders of the three names a row reads as it does under the usual one. *)
Theorem column_order_is_free (path : string) (cache : RateTable)
    (a b c : string) :
  let usual := read_line path cache (dict_row EXCHANGE_RATES_HEADER [a; b; c]) in
  read_line path cache (dict_row ["month"; "rate"; "currency"] [a; c; b])
    = usual /\
  read_line path cache (dict_row ["currency"; "month"; "rate"] [b; a; c])
    = usual /\
  read_line path cache (dict_row ["currency"; "rate"; "month"] [b; c; a])
    = usual /\
  read_line path cache (dict_row ["rate"; "month"; "currency"] [c; a; b])
    = usual /\
  read_line path cache (dict_row ["rate"; "currency"; "month"] [c; b; a])
    = usual.
Proof. repeat split. Qed.

(** X16: a row that is read changes the rate of its month and code, and no
    other: the codes the month had before keep their rates, and so do the
    other months. *)
Theorem row_sets_its_rate (path : string) (cache : RateTable)
    (a b c : string) (d : date) (rate : Decimal) :
  fromisoformat a = Ok d ->
  decimal.of_str c = Ok rate ->
  exists cache' rates',
    read_line path cache (dict_row EXCHANGE_RATES_HEADER [a; b; c]) = Ok cache' /\
    dict_get d cache' = Some rates' /\
    dict_get (Some b) rates' = Some rate /\
    (forall code, code <> Some b ->
       dict_get code rates' = dict_get code (default [] (dict_get d cache))) /\
    (forall d', d' <> d -> dict_get d' cache' = dict_get d' cache).
Proof.
  intros Hdate Hrate.
  rewrite dict_row_written, read_line_well_formed, Hdate. cbn [rbind].
  rewrite Hrate. cbn [rbind]. eexists _, _. split; [reflexivity|].
  split; [apply dict_get_set_eq|]. split; [apply dict_get_set_eq|]. split.
  - intros code Hne. by apply dict_get_set_ne.
  - intros d' Hne. by apply dict_get_set_ne.
Qed.

Lemma row_sets_its_rate_witness :
  exists cache' rates',
    read_line "rates.csv" [(january, january_rates)]
      (dict_row EXCHANGE_RATES_HEADER ["2021-01-01"; "USD"; "1.25"])
      = Ok cache' /\
    dict_get january cache' = Some rates' /\
    dict_get (Some "USD") rates' = Some (decimal.Finite false 125 (-2)) /\
    (forall code, code <> Some "USD" ->
       dict_get code rates'
       = dict_get code
           (default [] (dict_get january [(january, january_rates)]))) /\
    (forall d', d' <> january ->
       dict_get d' cache' = dict_get d' [(january, january_rates)]).
Proof.
  apply (row_sets_its_rate "rates.csv" [(january, january_rates)]
           "2021-01-01" "USD" "1.25" january
           (decimal.Finite false 125 (-2))); reflexivity.
Defined.

(** ** Starting again from the file a fetch wrote *)



(** ** Rows after the first, and the table that is written *)




(** X17: a row after the first whose keys are strings, but not those
    expected, is refused: the loading raises a [ParsingError] with the path
    and the keys of the row. *)
Theorem later_row_columns_checked (fs : gmap string csv_file) (path : string)
    (header : list string) (field : string) (fields_ row : list string)
    (rows : list (list string)) :
  row <> [] ->
  (length row <= length header)%nat ->
  sort_strings (dict_keys (fields (dict_row header row)))
    <> sort_strings EXCHANGE_RATES_HEADER ->
  _read_exchange_rates_file
    (<[path := header :: (field :: fields_) :: row :: rows]> fs) (Some path)
  = Raise (ParsingError path
             (InvalidColumns (keys (dict_row header row))
                             EXCHANGE_RATES_HEADER)).
Proof.
  intros Hrow Hlen Hkeys.
  rewrite read_second_row by (by destruct row).
  rewrite read_line_invalid_columns; [done| |done].
  unfold dict_row.
  by destruct (Nat.ltb_spec (length header) (length row)) as [?|_]; [lia|].
Qed.

Lemma later_row_columns_checked_witness :
  _read_exchange_rates_file
    (<["rates.csv" := ["month"; "currency"; "rat"]
                        :: ["2020-01-01"; "USD"; "1.3"]
                        :: ["2020-02-01"; "USD"; "1.4"] :: []]> ∅)
    (Some "rates.csv")
  = Raise (ParsingError "rates.csv"
             (InvalidColumns
                (keys (dict_row ["month"; "currency"; "rat"]
                                ["2020-02-01"; "USD"; "1.4"]))
                EXCHANGE_RATES_HEADER)).
Proof.
  apply (later_row_columns_checked ∅ "rates.csv" ["month"; "currency"; "rat"]
           "2020-01-01" ["USD"; "1.3"] ["2020-02-01"; "USD"; "1.4"] []).
  - discriminate.
  - simpl. lia.
  - vm_compute. discriminate.
Defined.



(** X20: the loop of the reader, run over all the rows the writer puts after
    the header for a table the file can hold, rebuilds that table. *)
Theorem loop_rebuilds_written_table (path : string) (data : RateTable) :
  storable data ->
  read_lines path []
    (map (dict_row EXCHANGE_RATES_HEADER) (data_rows data)) = Ok data.
Proof. apply read_lines_written. Qed.

Lemma loop_rebuilds_written_table_witness :
  read_lines "rates.csv" []
    (map (dict_row EXCHANGE_RATES_HEADER)
       (data_rows [(january, january_rates)]))
  = Ok [(january, january_rates)].
Proof.
  apply (loop_rebuilds_written_table "rates.csv" [(january, january_rates)]).
  split; [apply NoDup_singleton|].
  apply Forall_singleton. repeat split.
  - discriminate.
  - apply NoDup_cons_2; [|apply NoDup_singleton].
    rewrite list_elem_of_singleton. discriminate.
  - repeat apply Forall_cons_2; [| |apply Forall_nil_2]; by split; [eexists|].
Defined.



(** X22: the test for [None] after the rows are read never fires: neither
    the fetch nor a lookup raises the [ParsingError] of invalid data. *)
Theorem invalid_data_never_raised (st : State) (currency : string) (d : date)
    (file : string) :
  fst (_query_hmrc_api st d) <> Raise (ParsingError file InvalidData) /\
  fst (currency_to_gbp_rate st currency d)
    <> Raise (ParsingError file InvalidData).
Proof.
  split; [apply query_never_invalid_data|].
  unfold currency_to_gbp_rate. cbn [is_date negb].
  destruct (negb (dict_mem d (cache (self st)))).
  - pose proof (query_never_invalid_data (announce st d) d file) as Hq.
    destruct (_query_hmrc_api (announce st d) d) as [[[]|e] st1];
      [|cbn [fst] in *; congruence].
    destruct (cache_at st1 d) as [rs|e] eqn:Hc.
    + by destruct (dict_get (Some currency) rs).
    + unfold cache_at in Hc. destruct (dict_get d _); [done|].
      by injection Hc as <-.
  - destruct (cache_at st d) as [rs|e] eqn:Hc.
    + by destruct (dict_get (Some currency) rs).
    + unfold cache_at in Hc. destruct (dict_get d _); [done|].
      by injection Hc as <-.
Qed.

(** X23: a response with a row whose rate is missing or is no decimal stops
    the fetch with [InvalidOperation], after its one request; the converter
    and the files stay as they were. *)
Theorem bad_rate_stops_fetch (st : State) (d : date) (month_str url : string)
    (r : Response) (root : Element) :
  resource_for d = Ok (month_str, url) ->
  remote (world st) url = Responded r ->
  ok r = true ->
  tree r = Some root ->
  Exists (fun row => exists e, decimal.of_str (text_str (find "rateNew" row))
                               = Raise e) (children_of root) ->
  _query_hmrc_api st d =
    (Raise InvalidOperation,
     {| self := self st; world := send url (world st) |}).
Proof. apply query_bad_rate. Qed.

Lemma bad_rate_stops_fetch_witness :
  let st := {| self := converter []; world := serving month_without_rate |} in
  _query_hmrc_api st january =
    (Raise InvalidOperation,
     {| self := self st; world := send (current_url "2021-01") (world st) |}).
Proof.
  apply (bad_rate_stops_fetch
           {| self := converter []; world := serving month_without_rate |}
           january "2021-01" (current_url "2021-01")
           {| ok := true; status_code := 200;
              tree := Some month_without_rate |} month_without_rate);
    try reflexivity.
  apply Exists_cons_tl, Exists_cons_hd. by eexists.
Defined.

(** ** The url of a month *)

Lemma fmt2_inj (n m : Z) :
  0 <= n < 100 -> 0 <= m < 100 -> Str.fmt2 n = Str.fmt2 m -> n = m.
Proof.
  intros Hn Hm Heq. apply (f_equal Str.parse_digits) in Heq.
  rewrite !parse_fmt2 in Heq by done. congruence.
Qed.

Lemma fmt4_inj (n m : Z) :
  0 <= n < 10000 -> 0 <= m < 10000 -> Str.fmt4 n = Str.fmt4 m -> n = m.
Proof.
  intros Hn Hm Heq. apply (f_equal Str.parse_digits) in Heq.
  rewrite !parse_fmt4 in Heq by done. congruence.
Qed.

Lemma current_url_inj (t1 t2 : string) :
  current_url t1 = current_url t2 -> t1 +:+ ".xml" = t2 +:+ ".xml".
Proof.
  unfold current_url. intros H.
  by do 2 apply (inj (String.append _)) in H.
Qed.

Lemma archive_url_inj (slug1 slug2 t1 t2 : string) :
  String.length slug1 = 14%nat -> String.length slug2 = 14%nat ->
  archive_url slug1 t1 = archive_url slug2 t2 ->
  slug1 = slug2 /\ t1 +:+ ".xml" = t2 +:+ ".xml".
Proof.
  unfold archive_url. intros H1 H2 H.
  apply (inj (String.append _)) in H.
  assert (forall a b c d : string,
            String.length a = String.length c ->
            a +:+ b = c +:+ d -> a = c /\ b = d) as Hsplit.
  { clear. induction a as [|x a IH]; intros b [|y c] d Hlen; try done.
    change (String x (a +:+ b) = String y (c +:+ d) ->
            String x a = String y c /\ b = d).
    intros [= -> Hrest]. simpl in Hlen.
    destruct (IH b c d) as [-> ->]; [lia|done|done]. }
  apply Hsplit in H as [-> H]; [|congruence]. split; [done|].
  by do 3 apply (inj (String.append _)) in H.
Qed.

(** X24: two dates of the years the sources cover have the same url only
    where they are of the same month of the same year. *)
Theorem url_determines_month (d1 d2 : date) (t1 t2 url : string) :
  2015 <= year d1 <= 9999 -> 2015 <= year d2 <= 9999 ->
  1 <= month d1 <= 12 -> 1 <= month d2 <= 12 ->
  resource_for d1 = Ok (t1, url) ->
  resource_for d2 = Ok (t2, url) ->
  year d1 = year d2 /\ month d1 = month d2.
Proof.
  intros Hy1 Hy2 Hm1 Hm2. unfold resource_for, NEW_ENDPOINT_FROM_YEAR.
  destruct (Z.ltb_spec (year d1) 2021) as [Hlt1|Hge1];
    destruct (Z.ltb_spec (year d2) 2021) as [Hlt2|Hge2].
  - assert (year d1 = 2015 \/ year d1 = 2016 \/ year d1 = 2017 \/
            year d1 = 2018 \/ year d1 = 2019 \/ year d1 = 2020) as Hc1 by lia.
    assert (year d2 = 2015 \/ year d2 = 2016 \/ year d2 = 2017 \/
            year d2 = 2018 \/ year d2 = 2019 \/ year d2 = 2020) as Hc2 by lia.
    unfold strftime_my.
    destruct Hc1 as [E1|[E1|[E1|[E1|[E1|E1]]]]];
      destruct Hc2 as [E2|[E2|[E2|[E2|[E2|E2]]]]];
      rewrite E1, E2; cbn [dict_get crawl_slugs rbind];
      intros [= <- Hu1] [= <- Hu2]; rewrite <- Hu2 in Hu1;
      (apply archive_url_inj in Hu1 as [Hslug Htoken];
       [|reflexivity|reflexivity]); try discriminate Hslug;
      (split; [reflexivity|]);
      apply (f_equal (substring 0 2)) in Htoken; cbn in Htoken;
      (apply fmt2_inj; [lia|lia|exact Htoken]).
  - destruct (dict_get (year d1) crawl_slugs); cbn [rbind]; [|done].
    intros [= <- Hu1] [= <- Hu2]. rewrite <- Hu2 in Hu1.
    apply (f_equal (String.get 9)) in Hu1. discriminate Hu1.
  - destruct (dict_get (year d2) crawl_slugs); cbn [rbind]; [|done].
    intros [= <- Hu1] [= <- Hu2]. rewrite <- Hu2 in Hu1.
    apply (f_equal (String.get 9)) in Hu1. discriminate Hu1.
  - unfold strftime_Y_m. intros [= <- Hu1] [= <- Hu2]. rewrite <- Hu2 in Hu1.
    apply current_url_inj in Hu1.
    pose proof (f_equal (substring 0 4) Hu1) as Hyear.
    pose proof (f_equal (substring 5 2) Hu1) as Hmonth.
    cbn in Hyear, Hmonth.
    split; [apply fmt4_inj|apply fmt2_inj]; try done; lia.
Qed.

Lemma url_determines_month_witness :
  year (Date 2019 7 1) = year (Date 2019 7 15) /\
  month (Date 2019 7 1) = month (Date 2019 7 15).
Proof.
  refine (url_determines_month (Date 2019 7 1) (Date 2019 7 15) "0719" "0719"
            (archive_url "20220409162528" "0719") _ _ _ _ _ _);
    try (simpl; lia); reflexivity.
Defined.

(** * Examples *)

Example isoformat_example : isoformat (Date 2020 1 5) = "2020-01-05".
Proof. reflexivity. Qed.

Example fromisoformat_example :
  fromisoformat "2020-01-05" = Ok (Date 2020 1 5) /\
  fromisoformat "2020-02-30" = Raise ValueError /\
  fromisoformat "2020-1-5" = Raise ValueError.
Proof. repeat split. Qed.

Example strftime_example :
  strftime_my (Date 2016 12 1) = "1216" /\
  strftime_Y_m (Date 2021 1 1) = "2021-01".
Proof. split; reflexivity. Qed.

Example upper_example : Str.upper "usd" = "USD" /\ Str.upper "None" = "NONE".
Proof. split; reflexivity. Qed.

Example of_str_examples :
  decimal.of_str "1.3" = Ok (decimal.Finite false 13 (-1)) /\
  decimal.of_str " -1_0.50e+3 " = Ok (decimal.Finite true 1050 1) /\
  decimal.of_str ".5" = Ok (decimal.Finite false 5 (-1)) /\
  decimal.of_str "1." = Ok (decimal.Finite false 1 0) /\
  decimal.of_str "snan12" = Ok (decimal.NaN false true 12) /\
  decimal.of_str "-inFinity" = Ok (decimal.Infinity true) /\
  decimal.of_str "." = Raise InvalidOperation /\
  decimal.of_str "1e" = Raise InvalidOperation /\
  decimal.of_str "None" = Raise InvalidOperation.
Proof. repeat split. Qed.

Example to_str_examples :
  decimal.to_str (decimal.Finite false 13 (-1)) = "1.3" /\
  decimal.to_str (decimal.Finite true 1050 1) = "-1.050E+4" /\
  decimal.to_str (decimal.Finite false 5 (-8)) = "5E-8" /\
  decimal.to_str (decimal.Finite false 5 (-6)) = "0.000005" /\
  decimal.to_str (decimal.Finite false 12345 (-2)) = "123.45" /\
  decimal.to_str (decimal.Finite false 0 5) = "0E+5".
Proof. repeat split. Qed.

Example truediv_examples :
  decimal.truediv (decimal.Finite false 1 0) (decimal.Finite false 3 0)
    = Ok (decimal.Finite false 3333333333333333333333333333 (-28)) /\
  decimal.truediv (decimal.Finite false 2 0) (decimal.Finite false 3 0)
    = Ok (decimal.Finite false 6666666666666666666666666667 (-28)) /\
  decimal.truediv (decimal.Finite false 10 0) (decimal.Finite false 4 0)
    = Ok (decimal.Finite false 25 (-1)) /\
  decimal.truediv (decimal.Finite false 100 0) (decimal.Finite false 1250 (-3))
    = Ok (decimal.Finite false 8 1) /\
  decimal.truediv (decimal.Finite false 1000 (-1)) (decimal.Finite false 8 0)
    = Ok (decimal.Finite false 125 (-1)) /\
  decimal.truediv (decimal.Finite true 1 0) (decimal.Finite false 0 0)
    = Raise DivisionByZero.
Proof. repeat split; vm_compute; reflexivity. Qed.

(** The decimal module reads back what it writes, here for every
    coefficient below 1000 with every exponent from -12 to 12. *)
Example to_str_of_str_small :
  forallb (fun c =>
    forallb (fun e =>
      forallb (fun s =>
        match decimal.of_str (decimal.to_str (decimal.Finite s c e)) with
        | Ok d => bool_decide (d = decimal.Finite s c e)
        | Raise _ => false
        end)
        [false; true])
      (map (fun k => Z.of_nat k - 12) (seq 0 25)))
    (map N.of_nat (seq 0 1000)) = true.
Proof. vm_compute. reflexivity. Qed.

Example january_table_storable : storable [(january, january_rates)].
Proof.
  split; [apply NoDup_singleton|].
  apply Forall_singleton. repeat split; simpl.
  - discriminate.
  - apply NoDup_cons_2; [|apply NoDup_singleton].
    rewrite list_elem_of_singleton. discriminate.
  - repeat apply Forall_cons_2; [| |apply Forall_nil_2]; by split; [eexists|].
Qed.
